(** * c3bottles: the drop point model (model.py)

    A shallow embedding of [DropPoint], [Location], [Capacity], [Report]
    and [Visit] together with the session they are added to, followed by
    the properties of the timelines, of the state resolution and of the
    visit priority.

    Conventions of the embedding:
    - a [datetime] is the integer number of microseconds since the epoch
      (the resolution of Python's [datetime]); every call of
      [datetime.today()] is an explicit argument named [today];
    - a Python [float] is an IEEE 754 binary64 value ([spec_float] with
      precision 53 and maximal exponent 1024), with the correctly rounded
      operations of the standard library's specification of binary64;
    - an argument that may be [None] is an [option]; numeric arguments
      are already of the type the constructor converts them to, so
      [int(x)] and [float(x)] fail exactly on [None];
    - the SQLAlchemy session is a record of the objects the constructors
      hand to [db.session.add], in the order of the calls; a relationship
      is the query it declares, evaluated on that record, and an object
      refers to its drop point by the identity of that object. *)

From Stdlib Require Import ZArith List String Bool Lia Sorted.
From Stdlib Require Import Floats.SpecFloat.
Import ListNotations.

Open Scope string_scope.
Open Scope list_scope.
Open Scope Z_scope.

Set Implicit Arguments.

(** ** Python numbers *)

Module Py.

Definition prec : Z := 53.
Definition emax : Z := 1024.

Definition fadd : spec_float -> spec_float -> spec_float := SFadd prec emax.
Definition fmul : spec_float -> spec_float -> spec_float := SFmul prec emax.
Definition fdiv : spec_float -> spec_float -> spec_float := SFdiv prec emax.
Definition fltb : spec_float -> spec_float -> bool := SFltb.

(** [float(z)] for an integer [z], rounded to nearest even.  Python raises
    [OverflowError] where this yields an infinity (from 2^1024 on). *)
Definition float_of_int (z : Z) : spec_float :=
  binary_normalize prec emax z 0 false.

(** True division of two integers, [a / b] with [b > 0], correctly
    rounded from the exact quotient. *)
Definition int_truediv (a : Z) (b : positive) : spec_float :=
  match a with
  | Z0 => S754_zero false
  | Zpos p => fdiv (S754_finite false p 0) (S754_finite false b 0)
  | Zneg p => fdiv (S754_finite true p 0) (S754_finite false b 0)
  end.

(** The literal [0.1]: the binary64 value nearest to one tenth. *)
Definition lit_0_1 : spec_float := S754_finite false 7205759403792794 (-56).

(** The literal [10.8]. *)
Definition lit_10_8 : spec_float := S754_finite false 6079859496950170 (-49).

(** An [int] or a [float], as the variable [priority] is in turn. *)
Inductive num : Type :=
| Int (z : Z)
| Float (f : spec_float).

Definition to_float (x : num) : spec_float :=
  match x with
  | Int z => float_of_int z
  | Float f => f
  end.

Definition add (x y : num) : num :=
  match x, y with
  | Int a, Int b => Int (a + b)
  | _, _ => Float (fadd (to_float x) (to_float y))
  end.

Definition mul (x y : num) : num :=
  match x, y with
  | Int a, Int b => Int (a * b)
  | _, _ => Float (fmul (to_float x) (to_float y))
  end.

(** [x / y] where one operand is a float. *)
Definition truediv (x y : num) : num :=
  Float (fdiv (to_float x) (to_float y)).

(** The exact value of a float times one hundred, rounded half away from
    zero to an integer magnitude: [m * 2^e * 100] for [e < 0]. *)
Definition hundredths (m : positive) (e : Z) : Z :=
  let den := Z.pow 2 (- e) in
  (2 * (Zpos m * 100) + den) / (2 * den).

(** [round(x, 2)] of a float: the binary64 value nearest to the decimal
    obtained by rounding the exact value of [x] to two places, halves away
    from zero as in Python 2, which the source is written for (it reads
    [e.message]).  A float with a non-negative exponent is an integer and
    is returned as it is. *)
Definition fround2 (f : spec_float) : spec_float :=
  match f with
  | S754_finite s m e =>
      if 0 <=? e then f
      else match hundredths m e with
           | Zpos n => fdiv (S754_finite s n 0) (S754_finite false 100 0)
           | _ => S754_zero s
           end
  | _ => f
  end.

(** [round(x, 2)]; the result is always a float. *)
Definition round2 (x : num) : num := Float (fround2 (to_float x)).

(** [x == y] on numbers: an int and a float compare by value. *)
Definition eqb (x y : num) : bool :=
  match x, y with
  | Int a, Int b => a =? b
  | _, _ => SFeqb (to_float x) (to_float y)
  end.

(** [x >= y] on integers. *)
Definition geb (a b : Z) : bool := b <=? a.

End Py.

(** ** Errors and results *)

(** One entry of the list a [ValueError] carries: a dict with a single
    key, [{field: message}]. *)
Definition error : Type := (string * string)%type.

Inductive exn : Type :=
| ValueError (message : list error)
| RuntimeError (message : list error).

Inductive result (A : Type) : Type :=
| Ok (a : A)
| Raise (e : exn).

Arguments Ok {A} a.
Arguments Raise {A} e.

(** [errors.append(e)] guarded by a condition. *)
Definition check (cond : bool) (e : error) : list error :=
  if cond then [e] else [].

(** ** The classes *)

(** A datetime, in microseconds. *)
Definition datetime : Type := Z.

Module DropPoint.
(** [oid] is the identity of the Python object; [number] is unset
    ([None]) when [int(number)] failed in the constructor. *)
Record t : Type := mk {
  oid : nat;
  number : option Z;
  removed : option datetime
}.
End DropPoint.

(** [dp] holds the identity of the drop point assigned by [self.dp = dp].
    The columns [lat], [lng] and [level] stay unset where the conversion
    of the argument failed. *)
Module Location.
Definition max_description : nat := 140.

Record t : Type := mk {
  dp : nat;
  start_time : datetime;
  description : string;
  lat : option spec_float;
  lng : option spec_float;
  level : option Z
}.
End Location.

Module Capacity.
Definition default_crate_count : Z := 1.

Record t : Type := mk {
  dp : nat;
  start_time : datetime;
  crates : Z
}.

(** [crates = db.Column(db.Integer, default=default_crate_count)]: the
    value of the column for a row whose attribute was never assigned. *)
Definition crates_column (attribute : option Z) : Z :=
  match attribute with
  | Some n => n
  | None => default_crate_count
  end.
End Capacity.

Definition report_states : list string :=
  ["DEFAULT"; "NO_CRATES"; "EMPTY"; "SOME_BOTTLES"; "REASONABLY_FULL";
   "FULL"; "OVERFLOW"].

Module Report.
Record t : Type := mk {
  dp : nat;
  time : datetime;
  state : string
}.

(** The TODO of the source leaves every weight at the default. *)
Definition get_weight (self : t) : Z := 1.
End Report.

Definition visit_actions : list string :=
  ["EMPTIED"; "ADDED_CRATE"; "REMOVED_CRATE"; "RELOCATED"; "REMOVED";
   "NO_ACTION"].

Module Visit.
Record t : Type := mk {
  dp : nat;
  time : datetime;
  action : string
}.
End Visit.

(** ** The session *)

(** The objects handed to [db.session.add], per class and in the order
    of the calls, and the next free object identity. *)
Record Session : Type := mkSession {
  next_oid : nat;
  added_drop_points : list DropPoint.t;
  added_locations : list Location.t;
  added_capacities : list Capacity.t;
  added_reports : list Report.t;
  added_visits : list Visit.t
}.

Definition empty_session : Session := mkSession 0 [] [] [] [] [].

Definition add_drop_point (st : Session) (x : DropPoint.t) : Session :=
  mkSession (next_oid st) (added_drop_points st ++ [x]) (added_locations st)
            (added_capacities st) (added_reports st) (added_visits st).

Definition add_location (st : Session) (x : Location.t) : Session :=
  mkSession (next_oid st) (added_drop_points st) (added_locations st ++ [x])
            (added_capacities st) (added_reports st) (added_visits st).

Definition add_capacity (st : Session) (x : Capacity.t) : Session :=
  mkSession (next_oid st) (added_drop_points st) (added_locations st)
            (added_capacities st ++ [x]) (added_reports st) (added_visits st).

Definition add_report (st : Session) (x : Report.t) : Session :=
  mkSession (next_oid st) (added_drop_points st) (added_locations st)
            (added_capacities st) (added_reports st ++ [x]) (added_visits st).

Definition add_visit (st : Session) (x : Visit.t) : Session :=
  mkSession (next_oid st) (added_drop_points st) (added_locations st)
            (added_capacities st) (added_reports st) (added_visits st ++ [x]).

(** A new Python object takes the next identity. *)
Definition new_object (st : Session) : Session :=
  mkSession (S (next_oid st)) (added_drop_points st) (added_locations st)
            (added_capacities st) (added_reports st) (added_visits st).

(** ** Queries *)

(** Insertion of [x] before the first element whose key is not smaller. *)
Fixpoint insert_by (A : Type) (key : A -> Z) (x : A) (l : list A) : list A :=
  match l with
  | [] => [x]
  | y :: l' => if key x <=? key y then x :: l else y :: insert_by key x l'
  end.

(** [order_by(key)]: ascending in [key], rows of equal key in the order
    they were added. *)
Fixpoint order_by (A : Type) (key : A -> Z) (l : list A) : list A :=
  match l with
  | [] => []
  | x :: l' => insert_by key x (order_by key l')
  end.

(** [order_by(key.desc())]; among rows of equal key the one added first
    comes first. *)
Definition order_by_desc (A : Type) (key : A -> Z) (l : list A) : list A :=
  order_by (fun x => - key x) l.

(** [l[-1]] of a non-empty list, [None] for the empty one. *)
Fixpoint last_entry (A : Type) (l : list A) : option A :=
  match l with
  | [] => None
  | [x] => Some x
  | _ :: l' => last_entry l'
  end.

(** [query.first()]. *)
Definition first (A : Type) (l : list A) : option A := hd_error l.

(** The rows of each class that reference the drop point, as added. *)
Definition location_rows (st : Session) (self : DropPoint.t)
    : list Location.t :=
  filter (fun x => Nat.eqb (Location.dp x) (DropPoint.oid self))
         (added_locations st).

Definition capacity_rows (st : Session) (self : DropPoint.t)
    : list Capacity.t :=
  filter (fun x => Nat.eqb (Capacity.dp x) (DropPoint.oid self))
         (added_capacities st).

(** [locations = db.relationship("Location", order_by="Location.start_time")] *)
Definition locations (st : Session) (self : DropPoint.t) : list Location.t :=
  order_by Location.start_time (location_rows st self).

(** [capacities = db.relationship("Capacity", order_by="Capacity.start_time")] *)
Definition capacities (st : Session) (self : DropPoint.t) : list Capacity.t :=
  order_by Capacity.start_time (capacity_rows st self).

(** [reports = db.relationship("Report", lazy="dynamic")] *)
Definition reports (st : Session) (self : DropPoint.t) : list Report.t :=
  filter (fun x => Nat.eqb (Report.dp x) (DropPoint.oid self))
         (added_reports st).

(** [visits = db.relationship("Visit", lazy="dynamic")] *)
Definition visits (st : Session) (self : DropPoint.t) : list Visit.t :=
  filter (fun x => Nat.eqb (Visit.dp x) (DropPoint.oid self))
         (added_visits st).

(** [db.session.query(DropPoint).get(number)] *)
Definition get (st : Session) (number : Z) : option DropPoint.t :=
  find (fun x => match DropPoint.number x with
                 | Some n => n =? number
                 | None => false
                 end) (added_drop_points st).

(** ** Constructors *)

(** [Location.__init__].  The clock is read once: for the check against
    the future when [start_time] is given, for the default otherwise. *)
Definition Location_init (st : Session) (today : datetime)
    (dp : DropPoint.t) (start_time : option datetime)
    (description : option string) (lat lng : option spec_float)
    (level : option Z) : Session * result Location.t :=
  let errors : list error := [] in
  let errors := errors ++
    check (match start_time with Some t => today <? t | None => false end)
          ("Location", "Start time in the future.") in
  let errors := errors ++
    check (match last_entry (locations st dp), start_time with
           | Some current, Some t => t <? Location.start_time current
           | _, _ => false
           end)
          ("Location", "Location older than current.") in
  let self_start_time :=
    match start_time with Some t => t | None => today end in
  let errors := errors ++
    match lat with
    | None => [("lat", "Latitude is not a floating point number.")]
    | Some self_lat =>
        check (negb (Py.fltb (Py.float_of_int (-90)) self_lat
                     && Py.fltb self_lat (Py.float_of_int 90)))
              ("lat", "Latitude is not between 90 degrees N/S.")
    end in
  let errors := errors ++
    match lng with
    | None => [("lng", "Longitude is not a floating point number.")]
    | Some self_lng =>
        check (negb (Py.fltb (Py.float_of_int (-180)) self_lng
                     && Py.fltb self_lng (Py.float_of_int 180)))
              ("lat", "Longitude is not between 180 degrees W/E.")
    end in
  let errors := errors ++
    match level with
    | None => [("level", "Building level is not a number.")]
    | Some _ => []
    end in
  let self_description :=
    match description with Some s => s | None => "None" end in
  let errors := errors ++
    check (Nat.ltb Location.max_description (String.length self_description))
          ("description", "Room description is too long.") in
  let self := Location.mk (DropPoint.oid dp) self_start_time
                          self_description lat lng level in
  match errors with
  | [] => (add_location st self, Ok self)
  | _ :: _ => (st, Raise (ValueError errors))
  end.

(** [Capacity.__init__].  With [crates is None] the constructor assigns
    the default to its local variable only; the attribute stays unset and
    the column default fills the row. *)
Definition Capacity_init (st : Session) (today : datetime)
    (dp : DropPoint.t) (start_time : option datetime)
    (crates : option Z) : Session * result Capacity.t :=
  let errors : list error := [] in
  let errors := errors ++
    check (match start_time with Some t => today <? t | None => false end)
          ("Capacity", "Start time in the future.") in
  let errors := errors ++
    check (match last_entry (capacities st dp), start_time with
           | Some current, Some t => t <? Capacity.start_time current
           | _, _ => false
           end)
          ("Capacity", "Capacity older than current.") in
  let self_start_time :=
    match start_time with Some t => t | None => today end in
  let self_crates : option Z := crates in
  let errors := errors ++
    match crates with
    | None => []
    | Some n => check (n <? 0) ("crates", "Crate count is not positive.")
    end in
  let self := Capacity.mk (DropPoint.oid dp) self_start_time
                          (Capacity.crates_column self_crates) in
  match errors with
  | [] => (add_capacity st self, Ok self)
  | _ :: _ => (st, Raise (ValueError errors))
  end.

(** [x in report_states], [x in visit_actions]; [None] is in neither. *)
Definition member (x : option string) (l : list string) : bool :=
  match x with
  | Some s => existsb (String.eqb s) l
  | None => false
  end.

(** [Report.__init__].  The state is assigned only when it is one of
    [report_states]; otherwise the constructor raises and the object is
    dropped, whatever its state attribute holds. *)
Definition Report_init (st : Session) (today : datetime)
    (dp : DropPoint.t) (time : option datetime)
    (state : option string) : Session * result Report.t :=
  let errors : list error := [] in
  let errors := errors ++
    check (match time with Some t => today <? t | None => false end)
          ("Report", "Start time in the future.") in
  let self_time := match time with Some t => t | None => today end in
  let errors := errors ++
    check (negb (member state report_states))
          ("Report", "Invalid or missing reported state.") in
  let self := Report.mk (DropPoint.oid dp) self_time
                        (match state with Some s => s | None => "DEFAULT" end) in
  match errors with
  | [] => (add_report st self, Ok self)
  | _ :: _ => (st, Raise (ValueError errors))
  end.

(** [Visit.__init__], in the same way. *)
Definition Visit_init (st : Session) (today : datetime)
    (dp : DropPoint.t) (time : option datetime)
    (action : option string) : Session * result Visit.t :=
  let errors : list error := [] in
  let errors := errors ++
    check (match time with Some t => today <? t | None => false end)
          ("Visit", "Start time in the future.") in
  let self_time := match time with Some t => t | None => today end in
  let errors := errors ++
    check (negb (member action visit_actions))
          ("Visit", "Invalid or missing maintenance action.") in
  let self := Visit.mk (DropPoint.oid dp) self_time
                       (match action with Some s => s | None => "EMPTIED" end) in
  match errors with
  | [] => (add_visit st self, Ok self)
  | _ :: _ => (st, Raise (ValueError errors))
  end.

(** The errors a nested constructor contributes to the enclosing one:
    [except ValueError as e: for m in e.message: errors.append(m)]. *)
Definition caught (A : Type) (r : result A) : list error :=
  match r with
  | Raise (ValueError message) => message
  | _ => []
  end.

(** [DropPoint.__init__].  [today_location] and [today_capacity] are the
    clock as the two nested constructors read it, in this order. *)
Definition DropPoint_init (st : Session)
    (today_location today_capacity : datetime)
    (number : option Z) (description : option string)
    (lat lng : option spec_float) (level : option Z) (crates : option Z)
    (start_time : option datetime) : Session * result DropPoint.t :=
  let self_oid := next_oid st in
  let st := new_object st in
  let errors : list error := [] in
  let errors := errors ++
    match number with
    | None => [("number", "Drop point number is not a number.")]
    | Some n =>
        check (n <? 1) ("number", "Drop point number is not positive.")
        ++ check (match get st n with Some _ => true | None => false end)
                 ("number", "That drop point already exists.")
    end in
  let self := DropPoint.mk self_oid number None in
  let '(st, r_location) :=
    Location_init st today_location self start_time description lat lng level in
  let errors := errors ++ caught r_location in
  let '(st, r_capacity) :=
    Capacity_init st today_capacity self start_time crates in
  let errors := errors ++ caught r_capacity in
  match errors with
  | [] => (add_drop_point st self, Ok self)
  | _ :: _ => (st, Raise (ValueError errors))
  end.

(** ** Methods of [DropPoint] *)

(** The session after an attribute of [self] was assigned. *)
Definition update_drop_point (st : Session) (self : DropPoint.t) : Session :=
  mkSession (next_oid st)
            (map (fun x => if Nat.eqb (DropPoint.oid x) (DropPoint.oid self)
                           then self else x) (added_drop_points st))
            (added_locations st) (added_capacities st) (added_reports st)
            (added_visits st).

(** [DropPoint.remove]; the result is [self] after the assignment. *)
Definition remove (st : Session) (today : datetime) (self : DropPoint.t)
    (time : option datetime) : Session * result DropPoint.t :=
  match DropPoint.removed self with
  | Some _ =>
      (st, Raise (RuntimeError [("DropPoint", "Drop point already removed.")]))
  | None =>
      if match time with Some t => today <? t | None => false end
      then (st, Raise (ValueError [("DropPoint", "Removal time in the future.")]))
      else
        let self' :=
          DropPoint.mk (DropPoint.oid self) (DropPoint.number self)
                       (Some (match time with Some t => t | None => today end)) in
        (update_drop_point st self', Ok self')
  end.

(** [DropPoint.report] and [DropPoint.visit] *)
Definition report (st : Session) (today : datetime) (self : DropPoint.t)
    (state : option string) (time : option datetime)
    : Session * result Report.t :=
  Report_init st today self time state.

Definition visit (st : Session) (today : datetime) (self : DropPoint.t)
    (action : option string) (time : option datetime)
    : Session * result Visit.t :=
  Visit_init st today self time action.

Definition get_current_location (st : Session) (self : DropPoint.t)
    : option Location.t :=
  last_entry (locations st self).

Definition get_current_crate_count (st : Session) (self : DropPoint.t) : Z :=
  match last_entry (capacities st self) with
  | Some c => Capacity.crates c
  | None => 0
  end.

Definition get_total_report_count (st : Session) (self : DropPoint.t) : nat :=
  List.length (reports st self).

Definition get_last_report (st : Session) (self : DropPoint.t)
    : option Report.t :=
  first (order_by_desc Report.time (reports st self)).

Definition get_last_visit (st : Session) (self : DropPoint.t)
    : option Visit.t :=
  first (order_by_desc Visit.time (visits st self)).

Definition get_new_report_count (st : Session) (self : DropPoint.t) : nat :=
  match get_last_visit st self with
  | Some last_visit =>
      List.length (filter (fun r => Visit.time last_visit <? Report.time r)
                          (reports st self))
  | None => get_total_report_count st self
  end.

Definition get_last_state (st : Session) (self : DropPoint.t) : string :=
  match get_last_report st self, get_last_visit st self with
  | Some last_report, Some last_visit =>
      if (Report.time last_report <? Visit.time last_visit)
         && String.eqb (Visit.action last_visit) "EMPTIED"
      then "EMPTY"
      else Report.state last_report
  | Some last_report, None => Report.state last_report
  | None, _ => "UNKNOWN"
  end.

Definition get_new_reports (st : Session) (self : DropPoint.t)
    : list Report.t :=
  match get_last_visit st self with
  | Some last_visit =>
      order_by_desc Report.time
        (filter (fun r => Visit.time last_visit <? Report.time r)
                (reports st self))
  | None => order_by_desc Report.time (reports st self)
  end.

(** Two hours, in seconds. *)
Definition get_visit_interval (self : DropPoint.t) : Z := 120 * 60.

(** [timedelta.total_seconds()] of a difference of two datetimes: the
    microseconds divided by one million. *)
Definition total_seconds (delta : Z) : Py.num :=
  Py.Float (Py.int_truediv delta 1000000).

(** [DropPoint.get_priority] *)
Definition get_priority (st : Session) (today : datetime)
    (self : DropPoint.t) : Py.num :=
  match DropPoint.removed self with
  | Some _ => Py.Int 0
  | None =>
      let new_reports := get_new_reports st self in
      let priority := Py.Int 1 in
      let priority :=
        fold_left (fun priority report =>
                     Py.add priority (Py.Int (Report.get_weight report)))
                  new_reports priority in
      let priority :=
        if Py.geb (get_current_crate_count st self) 1
        then Py.mul priority
               (Py.add (Py.Int 1)
                  (Py.mul (Py.Float Py.lit_0_1)
                          (Py.Int (get_current_crate_count st self))))
        else priority in
      let priority :=
        match get_last_visit st self with
        | Some last_visit =>
            Py.mul priority
              (Py.truediv (total_seconds (today - Visit.time last_visit))
                          (Py.Int (get_visit_interval self)))
        | None => Py.mul priority (Py.Int 3)
        end in
      Py.round2 priority
  end.

(** ** Sequences of timeline entries *)






(** ** Vocabulary of the properties *)

(** [r] is the report [get_last_report] returns: a report of the drop
    point that no other of its reports is later than. *)
Definition most_recent_report (st : Session) (dp : DropPoint.t)
    (r : Report.t) : Prop :=
  get_last_report st dp = Some r /\
  In r (reports st dp) /\
  forall r', In r' (reports st dp) -> Report.time r' <= Report.time r.

Definition most_recent_visit (st : Session) (dp : DropPoint.t)
    (v : Visit.t) : Prop :=
  get_last_visit st dp = Some v /\
  In v (visits st dp) /\
  forall v', In v' (visits st dp) -> Visit.time v' <= Visit.time v.



(** A latitude or longitude given as a whole number of degrees. *)
Definition degrees (z : Z) : option spec_float := Some (Py.float_of_int z).

(** Drop point 1, created in an empty session with two crates, then
    reported full and overflowing, then emptied. *)
Definition hall : DropPoint.t := DropPoint.mk 0 (Some 1) None.

Definition session_hall : Session :=
  fst (DropPoint_init empty_session 100 101 (Some 1) (Some "hall")
                      (degrees 45) (degrees 10) (Some 0) (Some 2) None).

Definition session_reported : Session :=
  fst (report (fst (report session_hall 200 hall (Some "FULL") None))
                 300 hall (Some "OVERFLOW") None).

Definition session_emptied : Session :=
  fst (visit session_reported 500 hall (Some "EMPTIED") None).

(** The same drop point after [remove()] at 600. *)
Definition hall_removed : DropPoint.t := DropPoint.mk 0 (Some 1) (Some 600).

(** Every row of the session references an object created before: its
    identity is below the next free one. *)
Definition well_formed (st : Session) : Prop :=
  Forall (fun x => (DropPoint.oid x < next_oid st)%nat) (added_drop_points st) /\
  Forall (fun x => (Location.dp x < next_oid st)%nat) (added_locations st) /\
  Forall (fun x => (Capacity.dp x < next_oid st)%nat) (added_capacities st) /\
  Forall (fun x => (Report.dp x < next_oid st)%nat) (added_reports st) /\
  Forall (fun x => (Visit.dp x < next_oid st)%nat) (added_visits st).



(** [f] is [+0.0] or a positive finite float below [2^k]. *)
Definition magnitude_below (k : Z) (f : spec_float) : Prop :=
  match f with
  | S754_finite false m e => Zpos (digits2_pos m) + e <= k
  | S754_zero false => True
  | _ => False
  end.

(** The largest value of an [Integer] column, taken at 64 bits. *)
Definition max_integer : Z := 2 ^ 63 - 1.




(** ** Vocabulary of the validation *)

(** What the constructors of timeline entries demand of a start time:
    when given, it is not after the clock and not before the start of
    the current entry [current_start], if there is one. *)
Definition start_time_ok (today : datetime) (start_time : option datetime)
    (current_start : option datetime) : Prop :=
  forall t, start_time = Some t ->
    t <= today /\ forall c, current_start = Some c -> c <= t.

(** What the constructors of events demand of a time. *)
Definition time_ok (today : datetime) (time : option datetime) : Prop :=
  forall t, time = Some t -> t <= today.

(** A coordinate that is given and lies strictly between [-bound] and
    [bound] degrees. *)
Definition coordinate_ok (bound : Z) (x : option spec_float) : Prop :=
  exists f, x = Some f /\
            Py.fltb (Py.float_of_int (- bound)) f = true /\
            Py.fltb f (Py.float_of_int bound) = true.

(** [str(description)] *)
Definition description_text (description : option string) : string :=
  match description with Some s => s | None => "None" end.

(** The time an entry or event gets: the one given, else the clock. *)
Definition time_or (today : datetime) (time : option datetime) : datetime :=
  match time with Some t => t | None => today end.

Definition Location_valid (st : Session) (today : datetime)
    (dp : DropPoint.t) (start_time : option datetime)
    (description : option string) (lat lng : option spec_float)
    (level : option Z) : Prop :=
  start_time_ok today start_time
    (option_map Location.start_time (get_current_location st dp)) /\
  coordinate_ok 90 lat /\
  coordinate_ok 180 lng /\
  level <> None /\
  (String.length (description_text description)
   <= Location.max_description)%nat.

Definition Capacity_valid (st : Session) (today : datetime)
    (dp : DropPoint.t) (start_time : option datetime)
    (crates : option Z) : Prop :=
  start_time_ok today start_time
    (option_map Capacity.start_time (last_entry (capacities st dp))) /\
  (forall n, crates = Some n -> 0 <= n).

(** [x in l] for a value that may be [None]. *)
Definition one_of (l : list string) (x : option string) : Prop :=
  exists s, x = Some s /\ In s l.

(** A number that converts, is positive and is not taken. *)
Definition number_ok (st : Session) (number : option Z) : Prop :=
  exists n, number = Some n /\ 1 <= n /\ get st n = None.


(** The entry a relationship ordered by [key] ends with: of the rows with
    the greatest key the one added last. *)
Fixpoint latest (A : Type) (key : A -> Z) (l : list A) : option A :=
  match l with
  | [] => None
  | a :: l' =>
      match latest key l' with
      | None => Some a
      | Some c => if key c <? key a then Some a else Some c
      end
  end.

(** ** Sessions as callers build them *)

(** One call of the model by its user: a construction of a drop point,
    or a relocation, a change of capacity, a report, a visit or a removal
    of the drop point that [DropPoint.get] finds under a number.  Each
    carries the clock as the call reads it. *)
Inductive command : Type :=
| Create (today_location today_capacity : datetime) (number : option Z)
         (description : option string) (lat lng : option spec_float)
         (level : option Z) (crates : option Z)
         (start_time : option datetime)
| Relocate (today : datetime) (number : Z) (start_time : option datetime)
           (description : option string) (lat lng : option spec_float)
           (level : option Z)
| ChangeCapacity (today : datetime) (number : Z)
                 (start_time : option datetime) (crates : option Z)
| LogReport (today : datetime) (number : Z) (state : option string)
            (time : option datetime)
| LogVisit (today : datetime) (number : Z) (action : option string)
           (time : option datetime)
| Remove (today : datetime) (number : Z) (time : option datetime).

(** The session after a call on the drop point of a number; nothing is
    called when [get] returns [None]. *)
Definition on_drop_point (st : Session) (number : Z)
    (call : DropPoint.t -> Session) : Session :=
  match get st number with
  | Some dp => call dp
  | None => st
  end.

(** The session after a command, whether it raised or not. *)
Definition execute (st : Session) (c : command) : Session :=
  match c with
  | Create today_location today_capacity number description lat lng level
           crates start_time =>
      fst (DropPoint_init st today_location today_capacity number
                          description lat lng level crates start_time)
  | Relocate today number start_time description lat lng level =>
      on_drop_point st number (fun dp =>
        fst (Location_init st today dp start_time description lat lng level))
  | ChangeCapacity today number start_time crates =>
      on_drop_point st number (fun dp =>
        fst (Capacity_init st today dp start_time crates))
  | LogReport today number state time =>
      on_drop_point st number (fun dp =>
        fst (report st today dp state time))
  | LogVisit today number action time =>
      on_drop_point st number (fun dp =>
        fst (visit st today dp action time))
  | Remove today number time =>
      on_drop_point st number (fun dp => fst (remove st today dp time))
  end.

Definition run (st : Session) (l : list command) : Session :=
  fold_left execute l st.

(** The first and the last reading of the clock in a command. *)
Definition first_clock (c : command) : datetime :=
  match c with
  | Create today_location _ _ _ _ _ _ _ _ => today_location
  | Relocate today _ _ _ _ _ _ => today
  | ChangeCapacity today _ _ _ => today
  | LogReport today _ _ _ => today
  | LogVisit today _ _ _ => today
  | Remove today _ _ => today
  end.

Definition last_clock (c : command) : datetime :=
  match c with
  | Create _ today_capacity _ _ _ _ _ _ _ => today_capacity
  | _ => first_clock c
  end.

(** The clock never runs backwards from [now] on through the commands. *)
Fixpoint clock_runs (now : datetime) (l : list command) : Prop :=
  match l with
  | [] => True
  | c :: l' =>
      now <= first_clock c /\ first_clock c <= last_clock c /\
      clock_runs (last_clock c) l'
  end.

(** The clock after the commands. *)
Definition final_clock (now : datetime) (l : list command) : datetime :=
  fold_left (fun _ c => last_clock c) l now.

(** No time recorded in the session is after [now]. *)
Definition timestamps_upto (now : datetime) (st : Session) : Prop :=
  Forall (fun d => forall t, DropPoint.removed d = Some t -> t <= now)
         (added_drop_points st) /\
  Forall (fun x => Location.start_time x <= now) (added_locations st) /\
  Forall (fun x => Capacity.start_time x <= now) (added_capacities st) /\
  Forall (fun x => Report.time x <= now) (added_reports st) /\
  Forall (fun x => Visit.time x <= now) (added_visits st).

(** A location as the constructor accepts it. *)
Definition location_ok (x : Location.t) : Prop :=
  coordinate_ok 90 (Location.lat x) /\
  coordinate_ok 180 (Location.lng x) /\
  Location.level x <> None /\
  (String.length (Location.description x) <= Location.max_description)%nat.

(** Every entry of the session is one its constructor accepts, and the
    drop points carry positive numbers and differ in number and
    identity. *)
Definition session_valid (st : Session) : Prop :=
  well_formed st /\
  NoDup (map DropPoint.oid (added_drop_points st)) /\
  NoDup (map DropPoint.number (added_drop_points st)) /\
  Forall (fun d => exists n, DropPoint.number d = Some n /\ 1 <= n)
         (added_drop_points st) /\
  Forall location_ok (added_locations st) /\
  Forall (fun x => 0 <= Capacity.crates x) (added_capacities st) /\
  Forall (fun x => In (Report.state x) report_states) (added_reports st) /\
  Forall (fun x => In (Visit.action x) visit_actions) (added_visits st).

(** A run of commands on the empty session: two drop points, one
    relocated, reported, visited and removed. *)
Definition busy_day : list command :=
  [Create 100 101 (Some 1) (Some "hall") (degrees 45) (degrees 10) (Some 0)
          (Some 2) None;
   Create 110 111 (Some 2) None (degrees 46) (degrees 11) (Some 1) None
          (Some 105);
   Create 120 121 (Some 2) (Some "again") (degrees 95) None None
          (Some (-1)) None;
   Relocate 200 1 None (Some "yard") (degrees 45) (degrees 10) (Some 0);
   ChangeCapacity 210 2 (Some 205) (Some 4);
   LogReport 300 1 (Some "FULL") None;
   LogReport 310 3 (Some "FULL") None;
   LogVisit 400 1 (Some "EMPTIED") (Some 350);
   Remove 500 2 None;
   Remove 510 2 None].

(** [st'] holds every entry of [st], in the same order, and possibly
    more after them. *)
Definition extends (st st' : Session) : Prop :=
  (exists l, added_locations st' = added_locations st ++ l) /\
  (exists l, added_capacities st' = added_capacities st ++ l) /\
  (exists l, added_reports st' = added_reports st ++ l) /\
  (exists l, added_visits st' = added_visits st ++ l) /\
  (exists l, map DropPoint.oid (added_drop_points st')
             = map DropPoint.oid (added_drop_points st) ++ l).


(** * Properties *)

(** ** Binary64 values used by the priority *)

Example float_of_int_3 :
  Py.float_of_int 3 = S754_finite false 6755399441055744 (-51).
Proof. reflexivity. Qed.

Example lit_0_1_is_tenth :
  Py.fdiv (Py.float_of_int 1) (Py.float_of_int 10) = Py.lit_0_1.
Proof. vm_compute. reflexivity. Qed.

Example lit_10_8_is_108_tenths :
  Py.fdiv (Py.float_of_int 108) (Py.float_of_int 10) = Py.lit_10_8.
Proof. vm_compute. reflexivity. Qed.

(** [3 * 1.2 * 3] is 10.799999999999999 in binary64, one unit in the last
    place below [10.8]; [round] brings it back. *)
Example product_before_rounding :
  Py.fmul (Py.fmul (Py.float_of_int 3)
                   (Py.fadd (Py.float_of_int 1)
                            (Py.fmul Py.lit_0_1 (Py.float_of_int 2))))
          (Py.float_of_int 3)
  = S754_finite false 6079859496950169 (-49).
Proof. vm_compute. reflexivity. Qed.

Example fround2_10_799 :
  Py.fround2 (S754_finite false 6079859496950169 (-49)) = Py.lit_10_8.
Proof. vm_compute. reflexivity. Qed.

(** [round(0.125, 2)] is [0.13]: an exact half goes away from zero. *)
Example fround2_half :
  Py.fround2 (S754_finite false 4503599627370496 (-55))
  = Py.fdiv (Py.float_of_int 13) (Py.float_of_int 100).
Proof. vm_compute. reflexivity. Qed.

(** ** Ordered queries *)

Section OrderBy.

Variable A : Type.
Variable key : A -> Z.

Lemma insert_by_In (x y : A) (l : list A) :
  In y (insert_by key x l) <-> y = x \/ In y l.
Proof.
  induction l as [|z l IH]; simpl.
  - intuition.
  - destruct (key x <=? key z); simpl; [intuition|].
    rewrite IH. intuition.
Qed.

Lemma order_by_In (y : A) (l : list A) :
  In y (order_by key l) <-> In y l.
Proof.
  induction l as [|x l IH]; simpl; [tauto|].
  rewrite insert_by_In, IH. intuition.
Qed.

Lemma insert_by_length (x : A) (l : list A) :
  List.length (insert_by key x l) = S (List.length l).
Proof.
  induction l as [|z l IH]; simpl; [reflexivity|].
  destruct (key x <=? key z); simpl; congruence.
Qed.

Lemma order_by_length (l : list A) :
  List.length (order_by key l) = List.length l.
Proof.
  induction l as [|x l IH]; simpl; [reflexivity|].
  rewrite insert_by_length. congruence.
Qed.

Lemma order_by_nil (l : list A) :
  order_by key l = [] -> l = [].
Proof.
  intros H. apply (f_equal (@List.length A)) in H.
  rewrite order_by_length in H. destruct l; [reflexivity|discriminate].
Qed.

Lemma insert_by_sorted (x : A) (l : list A) :
  Sorted Z.le (map key l) -> Sorted Z.le (map key (insert_by key x l)).
Proof.
  induction l as [|z l IH]; simpl; intros HS.
  - repeat constructor.
  - destruct (key x <=? key z) eqn:E; simpl.
    + constructor; [assumption|]. constructor. now apply Z.leb_le.
    + apply Z.leb_gt in E. inversion HS as [|? ? HS' HR]; subst.
      constructor; [auto|].
      destruct l as [|w l]; simpl in *.
      * constructor. lia.
      * destruct (key x <=? key w); simpl; constructor; [lia|].
        now inversion HR.
Qed.

Lemma order_by_sorted (l : list A) :
  Sorted Z.le (map key (order_by key l)).
Proof.
  induction l as [|x l IH]; simpl; [constructor|].
  now apply insert_by_sorted.
Qed.


Lemma sorted_head_least (x : A) (l : list A) :
  Sorted Z.le (map key (x :: l)) -> forall y, In y l -> key x <= key y.
Proof.
  intros HS.
  apply Sorted_StronglySorted in HS; [|intros a b c; apply Z.le_trans].
  simpl in HS. inversion HS as [|? ? _ HF]; subst.
  rewrite Forall_forall in HF.
  intros y Hy. apply HF. now apply in_map.
Qed.

Lemma last_entry_app (l : list A) (x : A) :
  last_entry (l ++ [x]) = Some x.
Proof.
  induction l as [|y l IH]; simpl; [reflexivity|].
  rewrite IH. destruct (l ++ [x]) eqn:E; [|reflexivity].
  destruct l; discriminate.
Qed.

Lemma last_entry_In (l : list A) (x : A) :
  last_entry l = Some x -> In x l.
Proof.
  induction l as [|y l IH]; simpl; [discriminate|].
  destruct l as [|z l].
  - intros [= ->]. now left.
  - intros H. right. now apply IH.
Qed.

Lemma last_entry_none (l : list A) :
  last_entry l = None -> l = [].
Proof.
  induction l as [|y l IH]; simpl; [reflexivity|].
  destruct l as [|z l]; [discriminate|].
  intros H. specialize (IH H). discriminate.
Qed.

Lemma last_entry_split (l : list A) (x : A) :
  last_entry l = Some x -> exists l', l = l' ++ [x].
Proof.
  induction l as [|y l IH]; simpl; [discriminate|].
  destruct l as [|z l].
  - intros [= ->]. now exists [].
  - intros H. destruct (IH H) as [l' ->]. now exists (y :: l').
Qed.

End OrderBy.

(** The first row in descending order carries the greatest key. *)
Lemma first_order_by_desc (A : Type) (key : A -> Z) (l : list A) (x : A) :
  first (order_by_desc key l) = Some x ->
  In x l /\ forall y, In y l -> key y <= key x.
Proof.
  unfold first, order_by_desc. intros H.
  destruct (order_by (fun a => - key a) l) as [|h t] eqn:E; [discriminate|].
  injection H as ->.
  assert (Hin : forall y, In y (x :: t) <-> In y l)
    by (intros y; rewrite <- E; apply order_by_In).
  split; [apply Hin; now left|].
  intros y Hy. apply Hin in Hy. destruct Hy as [->|Hy]; [lia|].
  pose proof (order_by_sorted (fun a => - key a) l) as HS.
  rewrite E in HS.
  pose proof (@sorted_head_least A (fun a => - key a) x t HS y Hy). simpl in *. lia.
Qed.

Lemma first_order_by_desc_none (A : Type) (key : A -> Z) (l : list A) :
  first (order_by_desc key l) = None -> l = [].
Proof.
  unfold first, order_by_desc. intros H.
  apply (@order_by_nil A (fun a => - key a)).
  destruct (order_by (fun a => - key a) l); [reflexivity|discriminate].
Qed.

(** ** Magnitudes of binary64 values *)

Unset Implicit Arguments.

Lemma digits2_pos_size (p : positive) : digits2_pos p = Pos.size p.
Proof. induction p; simpl; congruence. Qed.

Lemma Zdigits2_nonneg (m : Z) : 0 <= Zdigits2 m.
Proof. destruct m; simpl; lia. Qed.

Lemma Zdigits2_pow (m k : Z) : 0 < m -> (Zdigits2 m <= k <-> m < 2 ^ k).
Proof.
  intros Hm. rewrite (Z.log2_lt_pow2 m k Hm).
  destruct m as [|p|p]; try lia.
  simpl Zdigits2. rewrite digits2_pos_size.
  destruct p; simpl; lia.
Qed.

Lemma Zdigits2_below (m : Z) : 0 < m -> m < 2 ^ Zdigits2 m.
Proof. intros Hm. apply Zdigits2_pow; [assumption|lia]. Qed.

Lemma Zdigits2_mul (a b : positive) :
  Zdigits2 (Zpos (a * b)) <= Zdigits2 (Zpos a) + Zdigits2 (Zpos b).
Proof.
  apply Zdigits2_pow; [lia|].
  pose proof (@Zdigits2_below (Zpos a) ltac:(lia)) as Ha.
  pose proof (@Zdigits2_below (Zpos b) ltac:(lia)) as Hb.
  pose proof (Zdigits2_nonneg (Zpos a)).
  pose proof (Zdigits2_nonneg (Zpos b)).
  rewrite Z.pow_add_r by assumption.
  rewrite Pos2Z.inj_mul. apply Z.mul_lt_mono_nonneg; lia.
Qed.

Lemma Zdigits2_add (a b k : Z) :
  0 < a -> 0 < b -> Zdigits2 a <= k -> Zdigits2 b <= k ->
  Zdigits2 (a + b) <= k + 1.
Proof.
  intros Ha Hb Da Db.
  assert (Hk : 0 <= k) by (pose proof (Zdigits2_nonneg a); lia).
  apply Zdigits2_pow; [lia|].
  apply Zdigits2_pow in Da; [|assumption].
  apply Zdigits2_pow in Db; [|assumption].
  replace (k + 1) with (Z.succ k) by lia.
  rewrite Z.pow_succ_r by assumption. lia.
Qed.

Lemma Zdigits2_succ (m : Z) : 0 <= m -> Zdigits2 (m + 1) <= Zdigits2 m + 1.
Proof.
  intros Hm. destruct (Z.eq_dec m 0) as [->|Hne]; [simpl; lia|].
  apply Zdigits2_pow; [lia|].
  pose proof (@Zdigits2_below m ltac:(lia)).
  pose proof (Zdigits2_nonneg m).
  replace (Zdigits2 m + 1) with (Z.succ (Zdigits2 m)) by lia.
  rewrite Z.pow_succ_r by assumption. lia.
Qed.

Lemma digits2_pos_iter_xO (m d : positive) :
  Zpos (digits2_pos (Pos.iter xO m d)) = Zpos (digits2_pos m) + Zpos d.
Proof.
  induction d as [|d IH] using Pos.peano_ind.
  - simpl. lia.
  - rewrite Pos.iter_succ. simpl digits2_pos. lia.
Qed.

(** One step of the right shift drops one binary digit. *)
Lemma shr_1_digits (mrs : shr_record) :
  0 <= shr_m mrs ->
  0 <= shr_m (shr_1 mrs) /\
  Zdigits2 (shr_m (shr_1 mrs)) = Z.max 0 (Zdigits2 (shr_m mrs) - 1).
Proof.
  destruct mrs as [m r s]. simpl shr_m at 1.
  destruct m as [|[p|p|]|p]; cbn [shr_1 shr_m Zdigits2 digits2_pos];
    intros H; split; lia.
Qed.

Lemma iter_shr_1_digits (p : positive) :
  forall mrs,
    0 <= shr_m mrs ->
    0 <= shr_m (iter_pos shr_1 p mrs) /\
    Zdigits2 (shr_m (iter_pos shr_1 p mrs))
    = Z.max 0 (Zdigits2 (shr_m mrs) - Zpos p).
Proof.
  induction p as [p IH|p IH|]; intros mrs H; simpl iter_pos.
  - destruct (shr_1_digits mrs H) as [H1 E1].
    destruct (IH _ H1) as [H2 E2].
    destruct (IH _ H2) as [H3 E3].
    split; [assumption|]. rewrite E3, E2, E1. lia.
  - destruct (IH _ H) as [H2 E2].
    destruct (IH _ H2) as [H3 E3].
    split; [assumption|]. rewrite E3, E2. lia.
  - destruct (shr_1_digits mrs H) as [H1 E1].
    split; [assumption|]. rewrite E1. lia.
Qed.

Lemma shr_record_of_loc_m (m : Z) (l : location) :
  shr_m (shr_record_of_loc m l) = m.
Proof. destruct l as [|[ | | ]]; reflexivity. Qed.

Lemma shr_fexp_digits (m e : Z) (l : location) :
  0 <= m ->
  let r := shr_fexp Py.prec Py.emax m e l in
  snd r = Z.max e (fexp Py.prec Py.emax (Zdigits2 m + e)) /\
  0 <= shr_m (fst r) /\
  Zdigits2 (shr_m (fst r)) + snd r <= Z.max (Zdigits2 m + e) (snd r).
Proof.
  intros Hm. unfold shr_fexp, shr.
  pose proof (shr_record_of_loc_m m l) as Em.
  destruct (fexp Py.prec Py.emax (Zdigits2 m + e) - e) as [|p|p] eqn:En;
    simpl.
  - rewrite Em. repeat split; lia.
  - destruct (iter_shr_1_digits p (shr_record_of_loc m l)) as [H1 E1];
      [rewrite Em; assumption|].
    rewrite Em in E1. repeat split; [lia|assumption|]. rewrite E1. lia.
  - rewrite Em. repeat split; lia.
Qed.

Lemma round_nearest_even_digits (m : Z) (l : location) :
  0 <= m ->
  0 <= round_nearest_even m l /\
  Zdigits2 (round_nearest_even m l) <= Zdigits2 m + 1.
Proof.
  intros Hm. pose proof (Zdigits2_succ m Hm) as Hs.
  unfold round_nearest_even.
  destruct l as [|[ | | ]]; try destruct (Z.even m); split; lia.
Qed.

(** Rounding keeps a magnitude below [2^k] below [2^(k+1)], far from the
    overflow threshold. *)
Lemma binary_round_aux_below (mx ex : Z) (lx : location) (k : Z) :
  0 <= mx -> Zdigits2 mx + ex <= k -> -1074 <= k <= 970 ->
  magnitude_below (k + 1) (binary_round_aux Py.prec Py.emax false mx ex lx).
Proof.
  intros Hm Hk Hrange. unfold binary_round_aux.
  pose proof (shr_fexp_digits mx ex lx Hm) as H1. cbv zeta in H1.
  destruct (shr_fexp Py.prec Py.emax mx ex lx) as [mrs1 e1].
  simpl fst in H1. simpl snd in H1. destruct H1 as (E1 & P1 & D1).
  destruct (round_nearest_even_digits (shr_m mrs1) (loc_of_shr_record mrs1) P1)
    as [P2 D2].
  pose proof (shr_fexp_digits (round_nearest_even (shr_m mrs1)
                                 (loc_of_shr_record mrs1)) e1 loc_Exact P2)
    as H3.
  cbv zeta in H3.
  destruct (shr_fexp Py.prec Py.emax
              (round_nearest_even (shr_m mrs1) (loc_of_shr_record mrs1))
              e1 loc_Exact) as [mrs3 e3].
  simpl fst in H3. simpl snd in H3. destruct H3 as (E3 & P3 & D3).
  pose proof (Zdigits2_nonneg mx).
  pose proof (Zdigits2_nonneg (shr_m mrs1)).
  unfold fexp, emin, Py.prec, Py.emax in *.
  destruct (shr_m mrs3) as [|m|m] eqn:Em; cbn [Zdigits2] in D3.
  - exact I.
  - destruct (Z.leb_spec e3 (1024 - 53)); cbn [magnitude_below]; lia.
  - lia.
Qed.

Lemma shl_align_digits (mx : positive) (ex ex' : Z) :
  Zpos (digits2_pos (fst (shl_align mx ex ex'))) + snd (shl_align mx ex ex')
  = Zpos (digits2_pos mx) + ex.
Proof.
  unfold shl_align.
  destruct (ex' - ex) as [|d|d] eqn:E; cbn [fst snd]; try lia.
  rewrite digits2_pos_iter_xO. lia.
Qed.

Lemma binary_round_below (mx : positive) (ex k : Z) :
  Zpos (digits2_pos mx) + ex <= k -> -1074 <= k <= 970 ->
  magnitude_below (k + 1) (binary_round Py.prec Py.emax false mx ex).
Proof.
  intros Hk Hrange. unfold binary_round.
  pose proof (shl_align_digits mx ex
                (fexp Py.prec Py.emax (Zpos (digits2_pos mx) + ex))) as H.
  destruct (shl_align mx ex _) as [mz ez]. cbn [fst snd] in H.
  apply binary_round_aux_below; cbn [Zdigits2]; lia.
Qed.

Lemma magnitude_below_mono (k k' : Z) (f : spec_float) :
  magnitude_below k f -> k <= k' -> magnitude_below k' f.
Proof. destruct f as [[|]|[|]| |[|] m e]; simpl; intros; try tauto; lia. Qed.

Lemma float_of_int_below (z k : Z) :
  0 < z -> z < 2 ^ k -> 0 <= k <= 970 ->
  magnitude_below (k + 1) (Py.float_of_int z).
Proof.
  intros Hz Hlt Hk. unfold Py.float_of_int, binary_normalize.
  destruct z as [|p|p]; try lia.
  apply binary_round_below; [|lia].
  apply (Zdigits2_pow (Zpos p) k Hz) in Hlt. cbn [Zdigits2] in Hlt. lia.
Qed.

Lemma fmul_below (x y : spec_float) (kx ky : Z) :
  magnitude_below kx x -> magnitude_below ky y ->
  -1074 <= kx + ky <= 970 ->
  magnitude_below (kx + ky + 1) (Py.fmul x y).
Proof.
  intros Hx Hy Hk.
  destruct x as [[|]|[|]| |[|] mx ex]; cbn [magnitude_below] in Hx;
    try contradiction;
    destruct y as [[|]|[|]| |[|] my ey]; cbn [magnitude_below] in Hy;
    try contradiction;
    unfold Py.fmul; cbn [SFmul xorb]; try exact I.
  apply binary_round_aux_below; [lia| |assumption].
  pose proof (Zdigits2_mul mx my) as H. cbn [Zdigits2] in *. lia.
Qed.

Lemma fadd_below (x y : spec_float) (k : Z) :
  magnitude_below k x -> magnitude_below k y ->
  -1074 <= k <= 968 ->
  magnitude_below (k + 2) (Py.fadd x y).
Proof.
  intros Hx Hy Hk.
  destruct x as [[|]|[|]| |[|] mx ex]; cbn [magnitude_below] in Hx;
    try contradiction;
    destruct y as [[|]|[|]| |[|] my ey]; cbn [magnitude_below] in Hy;
    try contradiction;
    unfold Py.fadd; cbn [SFadd cond_Zopp]; try exact I;
    try (cbn [magnitude_below]; lia).
  pose proof (shl_align_digits mx ex (Z.min ex ey)) as Ax.
  pose proof (shl_align_digits my ey (Z.min ex ey)) as Ay.
  assert (Sx : snd (shl_align mx ex (Z.min ex ey)) = Z.min ex ey)
    by (unfold shl_align; destruct (Z.min ex ey - ex) eqn:E;
        cbn [snd]; lia).
  assert (Sy : snd (shl_align my ey (Z.min ex ey)) = Z.min ex ey)
    by (unfold shl_align; destruct (Z.min ex ey - ey) eqn:E;
        cbn [snd]; lia).
  rewrite Sx in Ax. rewrite Sy in Ay.
  set (ax := fst (shl_align mx ex (Z.min ex ey))) in *.
  set (ay := fst (shl_align my ey (Z.min ex ey))) in *.
  change (Zpos ax + Zpos ay) with (Zpos (ax + ay)).
  cbn [binary_normalize].
  replace (k + 2) with ((k + 1) + 1) by lia.
  apply binary_round_below; [|lia].
  pose proof (Zdigits2_add (Zpos ax) (Zpos ay) (k - Z.min ex ey)
                ltac:(lia) ltac:(lia)) as H.
  cbn [Zdigits2] in H.
  change (Zpos ax + Zpos ay) with (Zpos (ax + ay)) in H.
  cbn [Zdigits2] in H. lia.
Qed.

Lemma fmul_zero (x : spec_float) (k : Z) :
  magnitude_below k x -> Py.fmul x (S754_zero false) = S754_zero false.
Proof.
  destruct x as [[|]|[|]| |[|] mx ex]; cbn [magnitude_below];
    intros H; try contradiction; reflexivity.
Qed.

Set Implicit Arguments.

(** ** State resolution *)

Lemma get_last_report_spec (st : Session) (dp : DropPoint.t) :
  match get_last_report st dp with
  | Some r => most_recent_report st dp r
  | None => reports st dp = []
  end.
Proof.
  unfold most_recent_report.
  destruct (get_last_report st dp) as [r|] eqn:E; unfold get_last_report in E.
  - split; [reflexivity|]. now apply first_order_by_desc.
  - now apply first_order_by_desc_none in E.
Qed.

Lemma get_last_visit_spec (st : Session) (dp : DropPoint.t) :
  match get_last_visit st dp with
  | Some v => most_recent_visit st dp v
  | None => visits st dp = []
  end.
Proof.
  unfold most_recent_visit.
  destruct (get_last_visit st dp) as [v|] eqn:E; unfold get_last_visit in E.
  - split; [reflexivity|]. now apply first_order_by_desc.
  - now apply first_order_by_desc_none in E.
Qed.

Lemma get_last_visit_none (st : Session) (dp : DropPoint.t) :
  visits st dp = [] -> get_last_visit st dp = None.
Proof. unfold get_last_visit. now intros ->. Qed.

Lemma get_last_report_none (st : Session) (dp : DropPoint.t) :
  reports st dp = [] -> get_last_report st dp = None.
Proof. unfold get_last_report. now intros ->. Qed.

(** C2: [get_last_state] is ["UNKNOWN"] without report and visit; it is
    the state of the most recent report when there is a report and no
    visit; with both, it is ["EMPTY"] when the most recent visit is
    strictly later than the most recent report and its action is
    ["EMPTIED"], and the state of the most recent report otherwise. *)
Theorem get_last_state_resolution (st : Session) (dp : DropPoint.t) :
  (reports st dp = [] -> visits st dp = [] ->
   get_last_state st dp = "UNKNOWN") /\
  (reports st dp <> [] -> visits st dp = [] ->
   exists r, most_recent_report st dp r /\
             get_last_state st dp = Report.state r) /\
  (reports st dp <> [] -> visits st dp <> [] ->
   exists r v,
     most_recent_report st dp r /\ most_recent_visit st dp v /\
     (Report.time r < Visit.time v /\ Visit.action v = "EMPTIED" ->
      get_last_state st dp = "EMPTY") /\
     (~ (Report.time r < Visit.time v /\ Visit.action v = "EMPTIED") ->
      get_last_state st dp = Report.state r)).
Proof.
  pose proof (get_last_report_spec st dp) as HR.
  pose proof (get_last_visit_spec st dp) as HV.
  unfold get_last_state.
  destruct (get_last_report st dp) as [r|];
    destruct (get_last_visit st dp) as [v|].
  - assert (Hr : reports st dp <> [])
      by (destruct HR as (_ & Hin & _); intros E; now rewrite E in Hin).
    assert (Hv : visits st dp <> [])
      by (destruct HV as (_ & Hin & _); intros E; now rewrite E in Hin).
    split; [tauto|]. split; [tauto|]. intros _ _.
    exists r, v. split; [exact HR|]. split; [exact HV|]. split.
    + intros [Ht Ha]. apply Z.ltb_lt in Ht. apply String.eqb_eq in Ha.
      now rewrite Ht, Ha.
    + intros Hn.
      destruct (Report.time r <? Visit.time v) eqn:Et; [|reflexivity].
      destruct (String.eqb (Visit.action v) "EMPTIED") eqn:Ea; [|reflexivity].
      exfalso. apply Hn. split; [now apply Z.ltb_lt|now apply String.eqb_eq].
  - assert (Hr : reports st dp <> [])
      by (destruct HR as (_ & Hin & _); intros E; now rewrite E in Hin).
    split; [tauto|]. split; [|tauto]. intros _ _.
    exists r. split; [exact HR|reflexivity].
  - split; [reflexivity|]. split; tauto.
  - split; [reflexivity|]. split; tauto.
Qed.

Lemma get_last_state_resolution_witness :
  get_last_state session_hall hall = "UNKNOWN" /\
  get_last_state session_emptied hall = "EMPTY".
Proof.
  split.
  - destruct (get_last_state_resolution session_hall hall) as (H & _).
    apply H; reflexivity.
  - destruct (get_last_state_resolution session_emptied hall)
      as (_ & _ & H).
    destruct H as (r & v & (Hr & _) & (Hv & _) & Hempty & _);
      [discriminate|discriminate|].
    vm_compute in Hr. injection Hr as <-.
    vm_compute in Hv. injection Hv as <-.
    apply Hempty. split; [simpl; lia|reflexivity].
Defined.

(** ** Timelines *)

Lemma raise_if_errors (A : Type) (st st_ok : Session) (x : A)
    (errors : list error) (e : error) :
  In e errors ->
  match errors with
  | [] => (st_ok, Ok x)
  | _ :: _ => (st, Raise (ValueError errors))
  end = (st, Raise (ValueError errors)).
Proof. destruct errors; [intros []|reflexivity]. Qed.




Lemma Location_init_cases (st : Session) (today : datetime)
    (dp : DropPoint.t) (start_time : option datetime)
    (description : option string) (lat lng : option spec_float)
    (level : option Z) :
  (exists errors,
     errors <> [] /\
     Location_init st today dp start_time description lat lng level
     = (st, Raise (ValueError errors))) \/
  (exists self,
     Location_init st today dp start_time description lat lng level
     = (add_location st self, Ok self) /\
     Location.dp self = DropPoint.oid dp /\
     Location.start_time self
     = match start_time with Some t => t | None => today end /\
     match start_time with
     | Some t =>
         t <= today /\
         forall current, last_entry (locations st dp) = Some current ->
                         Location.start_time current <= t
     | None => True
     end).
Proof.
  unfold Location_init.
  match goal with
  | |- context [check ?b ("Location", "Start time in the future.")] =>
      destruct b eqn:E1
  end.
  { left. simpl. eexists. split; [|reflexivity]. discriminate. }
  match goal with
  | |- context [check ?b ("Location", "Location older than current.")] =>
      destruct b eqn:E2
  end.
  { left. simpl. eexists. split; [|reflexivity]. discriminate. }
  cbn [check app].
  match goal with
  | |- context [match ?es with [] => _ | _ :: _ => _ end] =>
      destruct es eqn:E3
  end.
  - right. eexists. split; [reflexivity|]. simpl.
    split; [reflexivity|]. split; [reflexivity|].
    destruct start_time as [t|]; [|exact I].
    apply Z.ltb_ge in E1. split; [assumption|].
    intros current Hc. rewrite Hc in E2. now apply Z.ltb_ge in E2.
  - left. eexists. split; [|reflexivity]. discriminate.
Qed.

Lemma Capacity_init_cases (st : Session) (today : datetime)
    (dp : DropPoint.t) (start_time : option datetime) (crates : option Z) :
  (exists errors,
     errors <> [] /\
     Capacity_init st today dp start_time crates
     = (st, Raise (ValueError errors))) \/
  (exists self,
     Capacity_init st today dp start_time crates
     = (add_capacity st self, Ok self) /\
     Capacity.dp self = DropPoint.oid dp /\
     Capacity.start_time self
     = match start_time with Some t => t | None => today end /\
     Capacity.crates self = Capacity.crates_column crates /\
     match crates with Some n => 0 <= n | None => True end /\
     match start_time with
     | Some t =>
         t <= today /\
         forall current, last_entry (capacities st dp) = Some current ->
                         Capacity.start_time current <= t
     | None => True
     end).
Proof.
  unfold Capacity_init.
  match goal with
  | |- context [check ?b ("Capacity", "Start time in the future.")] =>
      destruct b eqn:E1
  end.
  { left. simpl. eexists. split; [|reflexivity]. discriminate. }
  match goal with
  | |- context [check ?b ("Capacity", "Capacity older than current.")] =>
      destruct b eqn:E2
  end.
  { left. simpl. eexists. split; [|reflexivity]. discriminate. }
  cbn [check app].
  match goal with
  | |- context [match ?es with [] => _ | _ :: _ => _ end] =>
      destruct es eqn:E3
  end.
  - right. eexists. split; [reflexivity|]. simpl.
    split; [reflexivity|]. split; [reflexivity|]. split; [reflexivity|].
    split.
    + destruct crates as [n|]; [|exact I].
      simpl in E3. destruct (n <? 0) eqn:En; [discriminate|].
      now apply Z.ltb_ge in En.
    + destruct start_time as [t|]; [|exact I].
      apply Z.ltb_ge in E1. split; [assumption|].
      intros current Hc. rewrite Hc in E2. now apply Z.ltb_ge in E2.
  - left. eexists. split; [|reflexivity]. discriminate.
Qed.

Lemma location_rows_add (st : Session) (dp : DropPoint.t) (x : Location.t) :
  Location.dp x = DropPoint.oid dp ->
  location_rows (add_location st x) dp = location_rows st dp ++ [x].
Proof.
  intros H. unfold location_rows. simpl. rewrite filter_app. simpl.
  now rewrite H, Nat.eqb_refl.
Qed.

Lemma capacity_rows_add (st : Session) (dp : DropPoint.t) (x : Capacity.t) :
  Capacity.dp x = DropPoint.oid dp ->
  capacity_rows (add_capacity st x) dp = capacity_rows st dp ++ [x].
Proof.
  intros H. unfold capacity_rows. simpl. rewrite filter_app. simpl.
  now rewrite H, Nat.eqb_refl.
Qed.









(** ** Construction of drop points *)

Lemma DropPoint_init_unfold (st : Session)
    (today_location today_capacity : datetime)
    (number : option Z) (description : option string)
    (lat lng : option spec_float) (level : option Z) (crates : option Z)
    (start_time : option datetime) :
  let self := DropPoint.mk (next_oid st) number None in
  let r_location :=
    Location_init (new_object st) today_location self start_time
                  description lat lng level in
  let r_capacity :=
    Capacity_init (fst r_location) today_capacity self start_time crates in
  let errors :=
    match number with
    | None => [("number", "Drop point number is not a number.")]
    | Some n =>
        check (n <? 1) ("number", "Drop point number is not positive.")
        ++ check (match get st n with Some _ => true | None => false end)
                 ("number", "That drop point already exists.")
    end ++ caught (snd r_location) ++ caught (snd r_capacity) in
  DropPoint_init st today_location today_capacity number description
                 lat lng level crates start_time
  = match errors with
    | [] => (add_drop_point (fst r_capacity) self, Ok self)
    | _ :: _ => (fst r_capacity, Raise (ValueError errors))
    end.
Proof.
  intros self r_location r_capacity errors.
  unfold DropPoint_init.
  fold self. fold r_location.
  destruct r_location as [st1 r1] eqn:E1. simpl fst in *.
  fold r_capacity.
  destruct r_capacity as [st2 r2] eqn:E2. simpl fst. simpl snd in *.
  cbv zeta. subst errors. simpl app at 1.
  change (get (new_object st)) with (get st).
  rewrite <- !app_assoc. reflexivity.
Qed.

Lemma Location_init_session (st : Session) (today : datetime)
    (dp : DropPoint.t) (start_time : option datetime)
    (description : option string) (lat lng : option spec_float)
    (level : option Z) :
  match Location_init st today dp start_time description lat lng level with
  | (st', Ok x) => st' = add_location st x /\ Location.dp x = DropPoint.oid dp
  | (st', Raise e) =>
      st' = st /\ exists errors, e = ValueError errors /\ errors <> []
  end.
Proof.
  destruct (Location_init_cases st today dp start_time description
                                lat lng level)
    as [(errors & Hne & ->)|(self & -> & Hdp & _)].
  - split; [reflexivity|]. now exists errors.
  - now split.
Qed.

Lemma Capacity_init_session (st : Session) (today : datetime)
    (dp : DropPoint.t) (start_time : option datetime) (crates : option Z) :
  match Capacity_init st today dp start_time crates with
  | (st', Ok x) =>
      st' = add_capacity st x /\ Capacity.dp x = DropPoint.oid dp /\
      Capacity.crates x = Capacity.crates_column crates
  | (st', Raise e) =>
      st' = st /\ exists errors, e = ValueError errors /\ errors <> []
  end.
Proof.
  destruct (Capacity_init_cases st today dp start_time crates)
    as [(errors & Hne & ->)|(self & -> & Hdp & _ & Hcr & _)].
  - split; [reflexivity|]. now exists errors.
  - now repeat split.
Qed.




(** C6: the [ValueError] a drop point's constructor raises carries the
    errors of the number check, then every error the constructor of the
    initial location raised, then every error the constructor of the
    initial capacity raised. *)
Theorem construction_errors_aggregated (st : Session)
    (today_location today_capacity : datetime)
    (number : option Z) (description : option string)
    (lat lng : option spec_float) (level : option Z) (crates : option Z)
    (start_time : option datetime) (st' : Session) (errors : list error) :
  DropPoint_init st today_location today_capacity number description
                 lat lng level crates start_time
  = (st', Raise (ValueError errors)) ->
  let self := DropPoint.mk (next_oid st) number None in
  let r_location :=
    Location_init (new_object st) today_location self start_time
                  description lat lng level in
  let r_capacity :=
    Capacity_init (fst r_location) today_capacity self start_time crates in
  exists number_errors,
    errors
    = number_errors ++ caught (snd r_location) ++ caught (snd r_capacity) /\
    (number = None ->
     In ("number", "Drop point number is not a number.") number_errors) /\
    (forall n, number = Some n -> n < 1 ->
     In ("number", "Drop point number is not positive.") number_errors) /\
    (forall n x, number = Some n -> get st n = Some x ->
     In ("number", "That drop point already exists.") number_errors) /\
    (forall message, snd r_location = Raise (ValueError message) ->
     forall m, In m message -> In m errors) /\
    (forall message, snd r_capacity = Raise (ValueError message) ->
     forall m, In m message -> In m errors).
Proof.
  intros H self r_location r_capacity.
  rewrite DropPoint_init_unfold in H. cbv zeta in H.
  fold self in H. fold r_location in H. fold r_capacity in H.
  match type of H with
  | match ?ne ++ _ ++ _ with _ => _ end = _ => exists ne
  end.
  split; [|split; [|split; [|split; [|split]]]].
  - destruct (_ ++ _ ++ _) in H |- *; [discriminate|]. now inversion H.
  - intros ->. now left.
  - intros n -> Hn. apply Z.ltb_lt in Hn. rewrite Hn. now left.
  - intros n x -> Hx. rewrite Hx. apply in_or_app. right. now left.
  - intros message Hm m Hin.
    assert (E : errors
                = match number with
                  | None => [("number", "Drop point number is not a number.")]
                  | Some n =>
                      check (n <? 1) ("number", "Drop point number is not positive.")
                      ++ check (match get st n with Some _ => true | None => false end)
                               ("number", "That drop point already exists.")
                  end ++ caught (snd r_location) ++ caught (snd r_capacity))
      by (destruct (_ ++ _ ++ _) in H |- *; [discriminate|]; now inversion H).
    rewrite E, Hm. simpl caught. rewrite !in_app_iff. tauto.
  - intros message Hm m Hin.
    assert (E : errors
                = match number with
                  | None => [("number", "Drop point number is not a number.")]
                  | Some n =>
                      check (n <? 1) ("number", "Drop point number is not positive.")
                      ++ check (match get st n with Some _ => true | None => false end)
                               ("number", "That drop point already exists.")
                  end ++ caught (snd r_location) ++ caught (snd r_capacity))
      by (destruct (_ ++ _ ++ _) in H |- *; [discriminate|]; now inversion H).
    rewrite E, Hm. simpl caught. rewrite !in_app_iff. tauto.
Qed.

Lemma construction_errors_aggregated_witness :
  DropPoint_init empty_session 100 101 (Some 0) (Some "hall")
                 (degrees 95) (degrees 10) (Some 0) (Some (-1)) None
  = (new_object empty_session,
     Raise (ValueError
              [("number", "Drop point number is not positive.");
               ("lat", "Latitude is not between 90 degrees N/S.");
               ("crates", "Crate count is not positive.")])) /\
  exists number_errors,
    [("number", "Drop point number is not positive.");
     ("lat", "Latitude is not between 90 degrees N/S.");
     ("crates", "Crate count is not positive.")]
    = number_errors
      ++ [("lat", "Latitude is not between 90 degrees N/S.")]
      ++ [("crates", "Crate count is not positive.")] /\
    In ("number", "Drop point number is not positive.") number_errors.
Proof.
  split; [reflexivity|].
  destruct (@construction_errors_aggregated empty_session 100 101 (Some 0)
              (Some "hall") (degrees 95) (degrees 10) (Some 0) (Some (-1)) None
              (new_object empty_session)
              [("number", "Drop point number is not positive.");
               ("lat", "Latitude is not between 90 degrees N/S.");
               ("crates", "Crate count is not positive.")]
              eq_refl)
    as (number_errors & E & _ & Hpos & _).
  exists number_errors. split.
  - exact E.
  - apply (Hpos 0); [reflexivity|lia].
Defined.

(** ** Validation of locations and capacities *)

Lemma latitude_checks :
  negb (Py.fltb (Py.float_of_int (-90)) (Py.float_of_int 95)
        && Py.fltb (Py.float_of_int 95) (Py.float_of_int 90)) = true /\
  negb (Py.fltb (Py.float_of_int (-90)) (Py.float_of_int 45)
        && Py.fltb (Py.float_of_int 45) (Py.float_of_int 90)) = false /\
  negb (Py.fltb (Py.float_of_int (-180)) (Py.float_of_int 200)
        && Py.fltb (Py.float_of_int 200) (Py.float_of_int 180)) = true.
Proof. repeat split. Qed.

(** C7 fails on the code: with [lat], [lng] and [level] left at [None]
    the constructor of a location raises, whatever the drop point, the
    start time and the description are, and adds nothing to the session. *)
Theorem location_unknown_rejected (st : Session) (today : datetime)
    (dp : DropPoint.t) (start_time : option datetime)
    (description : option string) :
  exists errors,
    Location_init st today dp start_time description None None None
    = (st, Raise (ValueError errors)) /\
    In ("lat", "Latitude is not a floating point number.") errors /\
    In ("lng", "Longitude is not a floating point number.") errors /\
    In ("level", "Building level is not a number.") errors.
Proof.
  unfold Location_init. cbv zeta. eexists. split.
  - apply raise_if_errors
      with (e := ("lat", "Latitude is not a floating point number.")).
    rewrite !in_app_iff. do 3 left. right. now left.
  - rewrite !in_app_iff. split; [|split].
    + do 3 left. right. now left.
    + do 2 left. right. now left.
    + left. right. now left.
Qed.

Example location_unknown_rejected_hall :
  Location_init session_hall 200 hall None None None None None
  = (session_hall,
     Raise (ValueError
              [("lat", "Latitude is not a floating point number.");
               ("lng", "Longitude is not a floating point number.");
               ("level", "Building level is not a number.")])).
Proof. reflexivity. Qed.

(** C9, first half: a latitude of 95 degrees is reported under the
    field ["lat"].  Second half fails on the code: a longitude of 200
    degrees is reported under the field ["lat"] as well, and no error of
    the construction names the field ["lng"]. *)
Theorem longitude_error_names_latitude (st : Session) (today : datetime)
    (dp : DropPoint.t) (start_time : option datetime)
    (description : option string) (lng : option spec_float)
    (level : option Z) :
  (exists errors,
     Location_init st today dp start_time description (degrees 95) lng level
     = (st, Raise (ValueError errors)) /\
     In ("lat", "Latitude is not between 90 degrees N/S.") errors) /\
  (exists errors,
     Location_init st today dp start_time description
                   (degrees 45) (degrees 200) level
     = (st, Raise (ValueError errors)) /\
     In ("lat", "Longitude is not between 180 degrees W/E.") errors /\
     forall message, ~ In ("lng", message) errors).
Proof.
  destruct latitude_checks as (H95 & H45 & H200).
  split.
  - unfold Location_init, degrees. cbv zeta. rewrite H95.
    eexists. split.
    + apply raise_if_errors
        with (e := ("lat", "Latitude is not between 90 degrees N/S.")).
      rewrite !in_app_iff. do 3 left. right. now left.
    + rewrite !in_app_iff. do 3 left. right. now left.
  - unfold Location_init, degrees. cbv zeta. rewrite H45, H200.
    eexists. split; [|split].
    + apply raise_if_errors
        with (e := ("lat", "Longitude is not between 180 degrees W/E.")).
      rewrite !in_app_iff. do 2 left. right. now left.
    + rewrite !in_app_iff. do 2 left. right. now left.
    + intros message. rewrite !in_app_iff. unfold check.
      destruct level;
        repeat match goal with
               | |- context [if ?b then _ else _] => destruct b
               end;
        simpl; intuition congruence.
Qed.

Example longitude_error_names_latitude_hall :
  Location_init session_hall 200 hall None (Some "yard")
                (degrees 45) (degrees 200) (Some 0)
  = (session_hall,
     Raise (ValueError [("lat", "Longitude is not between 180 degrees W/E.")])).
Proof. reflexivity. Qed.

(** ** Crate counts *)





(** ** Sessions built by the constructors are well formed *)

Lemma well_formed_new_object (st : Session) :
  well_formed st -> well_formed (new_object st).
Proof.
  intros (H1 & H2 & H3 & H4 & H5).
  repeat split; simpl;
    (eapply Forall_impl; [|eassumption]); simpl; intros; lia.
Qed.

Lemma Location_init_well_formed (st : Session) (today : datetime)
    (dp : DropPoint.t) (start_time : option datetime)
    (description : option string) (lat lng : option spec_float)
    (level : option Z) :
  well_formed st -> (DropPoint.oid dp < next_oid st)%nat ->
  well_formed (fst (Location_init st today dp start_time description
                                  lat lng level)).
Proof.
  intros Hwf Hdp.
  pose proof (Location_init_session st today dp start_time description
                                    lat lng level) as H.
  destruct (Location_init st today dp start_time description lat lng level)
    as [st' [x|e]]; simpl; destruct H as [-> H]; [|assumption].
  destruct Hwf as (H1 & H2 & H3 & H4 & H5).
  repeat split; simpl; try assumption.
  apply Forall_app. split; [assumption|].
  constructor; [|constructor]. now rewrite H.
Qed.

Lemma Capacity_init_well_formed (st : Session) (today : datetime)
    (dp : DropPoint.t) (start_time : option datetime) (crates : option Z) :
  well_formed st -> (DropPoint.oid dp < next_oid st)%nat ->
  well_formed (fst (Capacity_init st today dp start_time crates)).
Proof.
  intros Hwf Hdp.
  pose proof (Capacity_init_session st today dp start_time crates) as H.
  destruct (Capacity_init st today dp start_time crates)
    as [st' [x|e]]; simpl; destruct H as [-> H]; [|assumption].
  destruct Hwf as (H1 & H2 & H3 & H4 & H5). destruct H as [H _].
  repeat split; simpl; try assumption.
  apply Forall_app. split; [assumption|].
  constructor; [|constructor]. now rewrite H.
Qed.

Lemma DropPoint_init_well_formed (st : Session)
    (today_location today_capacity : datetime)
    (number : option Z) (description : option string)
    (lat lng : option spec_float) (level : option Z) (crates : option Z)
    (start_time : option datetime) :
  well_formed st ->
  well_formed (fst (DropPoint_init st today_location today_capacity number
                                   description lat lng level crates
                                   start_time)).
Proof.
  intros Hwf. rewrite DropPoint_init_unfold. cbv zeta.
  set (self := DropPoint.mk (next_oid st) number None).
  assert (Hself : (DropPoint.oid self < next_oid (new_object st))%nat)
    by (unfold self; simpl; lia).
  pose proof (Location_init_well_formed today_location self start_time
                description lat lng level (well_formed_new_object Hwf) Hself)
    as HL.
  pose proof (Location_init_session (new_object st) today_location self
                start_time description lat lng level) as EL.
  destruct (Location_init (new_object st) today_location self start_time
                          description lat lng level) as [st1 r1].
  simpl fst in *. simpl snd in *.
  assert (Hself1 : (DropPoint.oid self < next_oid st1)%nat)
    by (destruct r1; destruct EL as [-> _]; simpl; lia).
  pose proof (Capacity_init_well_formed today_capacity self start_time
                crates HL Hself1) as HC.
  pose proof (Capacity_init_session st1 today_capacity self
                start_time crates) as EC.
  destruct (Capacity_init st1 today_capacity self start_time crates)
    as [st2 r2].
  simpl fst in *. simpl snd in *.
  assert (Hself2 : (DropPoint.oid self < next_oid st2)%nat)
    by (destruct r2; destruct EC as [-> _]; exact Hself1).
  destruct (_ ++ _ ++ _); simpl; [|assumption].
  destruct HC as (H1 & H2 & H3 & H4 & H5).
  repeat split; simpl; try assumption.
  apply Forall_app. split; [assumption|].
  constructor; [assumption|constructor].
Qed.

(** ** Priority *)

Example hall_created :
  DropPoint_init empty_session 100 101 (Some 1) (Some "hall")
                 (degrees 45) (degrees 10) (Some 0) (Some 2) None
  = (session_hall, Ok hall).
Proof. reflexivity. Qed.

Example hall_reported :
  visits session_reported hall = [] /\
  map Report.state (reports session_reported hall) = ["FULL"; "OVERFLOW"] /\
  get_current_crate_count session_reported hall = 2.
Proof. repeat split. Qed.

Example hall_remove :
  snd (remove session_reported 600 hall None) = Ok hall_removed.
Proof. reflexivity. Qed.

(** C3: a drop point that is not removed, holds two crates, was never
    visited and has exactly two reports has priority 10.8. *)
Theorem priority_two_crates_two_reports (st : Session) (today : datetime)
    (dp : DropPoint.t) :
  DropPoint.removed dp = None ->
  get_current_crate_count st dp = 2 ->
  visits st dp = [] ->
  List.length (reports st dp) = 2%nat ->
  (forall r, In r (get_new_reports st dp) -> Report.get_weight r = 1) /\
  get_priority st today dp = Py.Float Py.lit_10_8.
Proof.
  intros Hrem Hcrates Hvisits Hreports. split; [reflexivity|].
  unfold get_priority. rewrite Hrem, Hcrates.
  unfold get_new_reports. rewrite (get_last_visit_none st dp Hvisits).
  pose proof (order_by_length (fun x => - Report.time x) (reports st dp)) as HL.
  rewrite Hreports in HL. unfold order_by_desc.
  destruct (order_by (fun x => - Report.time x) (reports st dp))
    as [|a [|b [|c l]]]; try discriminate.
  vm_compute. reflexivity.
Qed.

Lemma priority_two_crates_two_reports_witness :
  (forall r, In r (get_new_reports session_reported hall) ->
             Report.get_weight r = 1) /\
  get_priority session_reported 400 hall = Py.Float Py.lit_10_8.
Proof.
  apply (priority_two_crates_two_reports session_reported 400 hall);
    reflexivity.
Defined.

(** C4: the priority of a removed drop point is 0, whatever its reports,
    visits and capacity are and whatever the time is. *)
Theorem priority_removed_zero (st : Session) (today : datetime)
    (dp : DropPoint.t) (t : datetime) :
  DropPoint.removed dp = Some t ->
  get_priority st today dp = Py.Int 0.
Proof. unfold get_priority. now intros ->. Qed.

Lemma priority_removed_zero_witness :
  get_priority session_reported 700 hall_removed = Py.Int 0.
Proof.
  apply (priority_removed_zero session_reported 700 hall_removed (t := 600)).
  reflexivity.
Defined.

(** The loop over the new reports adds one per report. *)
Lemma priority_sum (l : list Report.t) (k : Z) :
  fold_left (fun priority report =>
               Py.add priority (Py.Int (Report.get_weight report)))
            l (Py.Int k)
  = Py.Int (k + Z.of_nat (List.length l)).
Proof.
  revert k. induction l as [|r l IH]; intros k.
  - simpl. f_equal. lia.
  - cbn [fold_left Py.add]. rewrite IH. f_equal.
    unfold Report.get_weight. cbn [List.length]. lia.
Qed.

Lemma get_new_reports_length (st : Session) (dp : DropPoint.t) :
  (List.length (get_new_reports st dp) <= List.length (reports st dp))%nat.
Proof.
  unfold get_new_reports, order_by_desc.
  destruct (get_last_visit st dp) as [v|]; rewrite order_by_length.
  - apply filter_length_le.
  - apply le_n.
Qed.

Lemma zero_elapsed_factor (dp : DropPoint.t) :
  Py.truediv (total_seconds 0) (Py.Int (get_visit_interval dp))
  = Py.Float (S754_zero false).
Proof. reflexivity. Qed.

(** The priority before the factor of the elapsed time is a positive
    finite float, or an integer that converts to one. *)
Lemma weighted_sum_below (n c : Z) :
  0 <= n <= max_integer -> c <= max_integer ->
  magnitude_below 130
    (Py.to_float
       (if Py.geb c 1
        then Py.mul (Py.Int (1 + n))
               (Py.add (Py.Int 1)
                  (Py.mul (Py.Float Py.lit_0_1) (Py.Int c)))
        else Py.Int (1 + n))).
Proof.
  unfold max_integer. change (2 ^ 63) with 9223372036854775808.
  intros Hn Hc.
  assert (Bn : magnitude_below 65 (Py.float_of_int (1 + n))).
  { apply (float_of_int_below (1 + n) 64); [lia| |lia].
    change (2 ^ 64) with 18446744073709551616. lia. }
  unfold Py.geb. destruct (Z.leb_spec 1 c) as [Hc1|Hc1];
    cbn [Py.mul Py.add Py.to_float].
  - assert (Bc : magnitude_below 64 (Py.float_of_int c)).
    { apply (float_of_int_below c 63); [lia| |lia].
      change (2 ^ 63) with 9223372036854775808. lia. }
    assert (Bl : magnitude_below (-3) Py.lit_0_1)
      by (unfold Py.lit_0_1, magnitude_below; simpl; lia).
    assert (B1 : magnitude_below 2 (Py.float_of_int 1))
      by (apply (float_of_int_below 1 1); simpl; lia).
    pose proof (fmul_below _ _ (-3) 64 Bl Bc ltac:(lia)) as Bp.
    pose proof (fadd_below _ _ 62
                  (magnitude_below_mono 2 62 _ B1 ltac:(lia))
                  (magnitude_below_mono _ 62 _ Bp ltac:(lia))
                  ltac:(lia)) as Bs.
    pose proof (fmul_below _ _ 65 (62 + 2) Bn Bs ltac:(lia)) as Bw.
    apply (magnitude_below_mono _ 130 _ Bw). lia.
  - apply (magnitude_below_mono 65 130 _ Bn). lia.
Qed.

(** C10: for a drop point that is not removed and whose last visit is at
    the very instant the clock shows, the priority is [0.0] whatever its
    new reports and crates are (their numbers within the range of an
    Integer column); it compares equal to the [0] of a removed drop
    point. *)
Theorem priority_zero_at_visit (st : Session) (today : datetime)
    (dp : DropPoint.t) (last_visit : Visit.t) :
  DropPoint.removed dp = None ->
  get_last_visit st dp = Some last_visit ->
  today - Visit.time last_visit = 0 ->
  Z.of_nat (List.length (reports st dp)) <= max_integer ->
  get_current_crate_count st dp <= max_integer ->
  get_priority st today dp = Py.Float (S754_zero false) /\
  forall st' today' dp' t,
    DropPoint.removed dp' = Some t ->
    Py.eqb (get_priority st today dp) (get_priority st' today' dp') = true.
Proof.
  intros Hrem Hvisit Helapsed Hreports Hcrates.
  assert (E : get_priority st today dp = Py.Float (S754_zero false)).
  { unfold get_priority. rewrite Hrem, Hvisit, Helapsed.
    rewrite priority_sum, zero_elapsed_factor.
    pose proof (get_new_reports_length st dp) as Hlen.
    set (n := Z.of_nat (List.length (get_new_reports st dp))) in *.
    pose proof (@weighted_sum_below n (get_current_crate_count st dp)
                  ltac:(lia) Hcrates) as Hw.
    destruct (Py.geb (get_current_crate_count st dp) 1);
      cbn [Py.mul Py.add Py.to_float] in Hw |- *;
      unfold Py.round2; cbn [Py.to_float];
      rewrite (fmul_zero _ 130 Hw); reflexivity. }
  split; [exact E|].
  intros st' today' dp' t Hrem'.
  rewrite E. unfold get_priority. rewrite Hrem'. reflexivity.
Qed.

Lemma priority_zero_at_visit_witness :
  get_priority session_emptied 500 hall = Py.Float (S754_zero false) /\
  forall st' today' dp' t,
    DropPoint.removed dp' = Some t ->
    Py.eqb (get_priority session_emptied 500 hall)
           (get_priority st' today' dp') = true.
Proof.
  apply (priority_zero_at_visit session_emptied 500 hall
           (last_visit := Visit.mk 0 500 "EMPTIED")).
  - reflexivity.
  - reflexivity.
  - reflexivity.
  - vm_compute. discriminate.
  - vm_compute. discriminate.
Defined.

(** * Further properties of the model *)

(** ** What the constructors accept *)

Lemma app_nil_iff (A : Type) (l l' : list A) :
  l ++ l' = [] <-> l = [] /\ l' = [].
Proof.
  split.
  - apply app_eq_nil.
  - now intros [-> ->].
Qed.

Lemma check_nil_iff (b : bool) (e : error) : check b e = [] <-> b = false.
Proof. destruct b; simpl; split; congruence. Qed.

Lemma future_check_iff (today : datetime) (time : option datetime) :
  match time with Some t => today <? t | None => false end = false
  <-> time_ok today time.
Proof.
  unfold time_ok. destruct time as [t|].
  - rewrite Z.ltb_ge. split.
    + now intros H t' [= <-].
    + intros H. now apply H.
  - split; [intros _ t; discriminate|reflexivity].
Qed.

Lemma older_check_iff (A : Type) (key : A -> datetime) (today : datetime)
    (current : option A) (start_time : option datetime) :
  match start_time with Some t => today <? t | None => false end = false /\
  match current, start_time with
  | Some c, Some t => t <? key c
  | _, _ => false
  end = false
  <-> start_time_ok today start_time (option_map key current).
Proof.
  unfold start_time_ok. destruct start_time as [t|].
  - rewrite Z.ltb_ge. destruct current as [c|]; simpl.
    + rewrite Z.ltb_ge. split.
      * intros [H1 H2] t' [= <-]. split; [assumption|].
        now intros c' [= <-].
      * intros H. destruct (H t eq_refl) as [H1 H2].
        split; [assumption|]. now apply H2.
    + split.
      * intros [H1 _] t' [= <-]. split; [assumption|]. discriminate.
      * intros H. split; [now apply (H t)|reflexivity].
  - split.
    + intros _ t. discriminate.
    + intros _. destruct current; split; reflexivity.
Qed.

Lemma coordinate_check_iff (bound : Z) (x : option spec_float)
    (e_none e_range : error) :
  match x with
  | None => [e_none]
  | Some f =>
      check (negb (Py.fltb (Py.float_of_int (- bound)) f
                   && Py.fltb f (Py.float_of_int bound))) e_range
  end = []
  <-> coordinate_ok bound x.
Proof.
  unfold coordinate_ok. destruct x as [f|].
  - rewrite check_nil_iff, negb_false_iff, andb_true_iff. split.
    + intros H. now exists f.
    + now intros (f' & [= <-] & H).
  - split; [discriminate|]. now intros (f & H & _).
Qed.

Lemma Location_init_errors (st : Session) (today : datetime)
    (dp : DropPoint.t) (start_time : option datetime)
    (description : option string) (lat lng : option spec_float)
    (level : option Z) :
  let self :=
    Location.mk (DropPoint.oid dp) (time_or today start_time)
                (description_text description) lat lng level in
  exists errors,
    (errors = []
     <-> Location_valid st today dp start_time description lat lng level) /\
    Location_init st today dp start_time description lat lng level
    = match errors with
      | [] => (add_location st self, Ok self)
      | _ :: _ => (st, Raise (ValueError errors))
      end.
Proof.
  intros self. unfold Location_init. cbv zeta.
  match goal with
  | |- context [match ?es with [] => _ | _ :: _ => _ end] =>
      set (errors := es)
  end.
  exists errors. split; [|reflexivity].
  subst errors. unfold Location_valid, get_current_location.
  rewrite !app_nil_iff, !check_nil_iff.
  rewrite <- (older_check_iff Location.start_time today
                (last_entry (locations st dp)) start_time).
  rewrite <- (coordinate_check_iff 90 lat
                ("lat", "Latitude is not a floating point number.")
                ("lat", "Latitude is not between 90 degrees N/S.")).
  rewrite <- (coordinate_check_iff 180 lng
                ("lng", "Longitude is not a floating point number.")
                ("lat", "Longitude is not between 180 degrees W/E.")).
  rewrite Nat.ltb_ge.
  change (Py.float_of_int (- (90))) with (Py.float_of_int (-90)).
  change (Py.float_of_int (- (180))) with (Py.float_of_int (-180)).
  assert (Hlevel : match level with
                   | Some _ => []
                   | None => [("level", "Building level is not a number.")]
                   end = [] <-> level <> None)
    by (destruct level; split; congruence).
  rewrite Hlevel. unfold description_text. tauto.
Qed.

Lemma Location_init_outcome (st : Session) (today : datetime)
    (dp : DropPoint.t) (start_time : option datetime)
    (description : option string) (lat lng : option spec_float)
    (level : option Z) :
  let self :=
    Location.mk (DropPoint.oid dp) (time_or today start_time)
                (description_text description) lat lng level in
  (Location_valid st today dp start_time description lat lng level ->
   Location_init st today dp start_time description lat lng level
   = (add_location st self, Ok self)) /\
  (~ Location_valid st today dp start_time description lat lng level ->
   exists errors,
     errors <> [] /\
     Location_init st today dp start_time description lat lng level
     = (st, Raise (ValueError errors))).
Proof.
  intros self.
  destruct (Location_init_errors st today dp start_time description
                                 lat lng level) as (errors & Hiff & ->).
  fold self. split.
  - intros Hvalid. apply Hiff in Hvalid. now rewrite Hvalid.
  - intros Hinvalid. exists errors. split.
    + intros E. apply Hinvalid. now apply Hiff.
    + destruct errors as [|e errors']; [|reflexivity].
      exfalso. apply Hinvalid. now apply Hiff.
Qed.

(** X1: the constructor of a location accepts exactly the valid
    arguments.  It then adds the location with the fields given, the
    clock as start time when none is given; otherwise it raises a
    [ValueError] with at least one error and the session is as before. *)
Theorem Location_init_accepts (st : Session) (today : datetime)
    (dp : DropPoint.t) (start_time : option datetime)
    (description : option string) (lat lng : option spec_float)
    (level : option Z) :
  let self :=
    Location.mk (DropPoint.oid dp) (time_or today start_time)
                (description_text description) lat lng level in
  (Location_valid st today dp start_time description lat lng level ->
   Location_init st today dp start_time description lat lng level
   = (add_location st self, Ok self)) /\
  (~ Location_valid st today dp start_time description lat lng level ->
   exists errors,
     errors <> [] /\
     Location_init st today dp start_time description lat lng level
     = (st, Raise (ValueError errors))).
Proof.
  exact (Location_init_outcome st today dp start_time description
                               lat lng level).
Qed.

Lemma Location_init_accepts_witness :
  Location_init session_hall 200 hall None (Some "yard")
                (degrees 46) (degrees 11) (Some 1)
  = (add_location session_hall
       (Location.mk 0 200 "yard" (degrees 46) (degrees 11) (Some 1)),
     Ok (Location.mk 0 200 "yard" (degrees 46) (degrees 11) (Some 1))) /\
  exists errors,
    errors <> [] /\
    Location_init session_hall 200 hall (Some 50) (Some "yard")
                  (degrees 46) (degrees 11) (Some 1)
    = (session_hall, Raise (ValueError errors)).
Proof.
  split.
  - apply (Location_init_accepts session_hall 200 hall None (Some "yard")
             (degrees 46) (degrees 11) (Some 1)).
    repeat split.
    + discriminate.
    + discriminate.
    + now exists (Py.float_of_int 46).
    + now exists (Py.float_of_int 11).
    + discriminate.
    + apply Nat.leb_le. reflexivity.
  - apply (Location_init_accepts session_hall 200 hall (Some 50) (Some "yard")
             (degrees 46) (degrees 11) (Some 1)).
    intros (Hstart & _).
    destruct (Hstart 50 eq_refl) as [_ Hcurrent].
    specialize (Hcurrent 100 eq_refl). lia.
Defined.

Lemma Capacity_init_errors (st : Session) (today : datetime)
    (dp : DropPoint.t) (start_time : option datetime) (crates : option Z) :
  let self :=
    Capacity.mk (DropPoint.oid dp) (time_or today start_time)
                (match crates with Some n => n | None => 1 end) in
  exists errors,
    (errors = [] <-> Capacity_valid st today dp start_time crates) /\
    Capacity_init st today dp start_time crates
    = match errors with
      | [] => (add_capacity st self, Ok self)
      | _ :: _ => (st, Raise (ValueError errors))
      end.
Proof.
  intros self. unfold Capacity_init. cbv zeta.
  match goal with
  | |- context [match ?es with [] => _ | _ :: _ => _ end] =>
      set (errors := es)
  end.
  exists errors. split; [|destruct crates; reflexivity].
  subst errors. unfold Capacity_valid.
  rewrite !app_nil_iff, !check_nil_iff.
  rewrite <- (older_check_iff Capacity.start_time today
                (last_entry (capacities st dp)) start_time).
  assert (Hcrates : match crates with
                    | Some n => check (n <? 0)
                                  ("crates", "Crate count is not positive.")
                    | None => []
                    end = [] <-> forall n, crates = Some n -> 0 <= n).
  { destruct crates as [n|].
    - rewrite check_nil_iff, Z.ltb_ge. split.
      + now intros H n' [= <-].
      + intros H. now apply H.
    - split; [intros _ n; discriminate|reflexivity]. }
  rewrite Hcrates. tauto.
Qed.

Lemma Capacity_init_outcome (st : Session) (today : datetime)
    (dp : DropPoint.t) (start_time : option datetime) (crates : option Z) :
  let self :=
    Capacity.mk (DropPoint.oid dp) (time_or today start_time)
                (match crates with Some n => n | None => 1 end) in
  (Capacity_valid st today dp start_time crates ->
   Capacity_init st today dp start_time crates
   = (add_capacity st self, Ok self)) /\
  (~ Capacity_valid st today dp start_time crates ->
   exists errors,
     errors <> [] /\
     Capacity_init st today dp start_time crates
     = (st, Raise (ValueError errors))).
Proof.
  intros self.
  destruct (Capacity_init_errors st today dp start_time crates)
    as (errors & Hiff & ->).
  fold self. split.
  - intros Hvalid. apply Hiff in Hvalid. now rewrite Hvalid.
  - intros Hinvalid. exists errors. split.
    + intros E. apply Hinvalid. now apply Hiff.
    + destruct errors as [|e errors']; [|reflexivity].
      exfalso. apply Hinvalid. now apply Hiff.
Qed.

(** X2: the constructor of a capacity accepts exactly a valid start time
    together with a crate count that is absent or not negative.  It then
    adds the capacity, with one crate when no count is given; otherwise
    it raises a [ValueError] with at least one error and the session is
    as before. *)
Theorem Capacity_init_accepts (st : Session) (today : datetime)
    (dp : DropPoint.t) (start_time : option datetime) (crates : option Z) :
  let self :=
    Capacity.mk (DropPoint.oid dp) (time_or today start_time)
                (match crates with Some n => n | None => 1 end) in
  (Capacity_valid st today dp start_time crates ->
   Capacity_init st today dp start_time crates
   = (add_capacity st self, Ok self)) /\
  (~ Capacity_valid st today dp start_time crates ->
   exists errors,
     errors <> [] /\
     Capacity_init st today dp start_time crates
     = (st, Raise (ValueError errors))).
Proof. exact (Capacity_init_outcome st today dp start_time crates). Qed.

Lemma Capacity_init_accepts_witness :
  Capacity_init session_hall 300 hall (Some 250) (Some 0)
  = (add_capacity session_hall (Capacity.mk 0 250 0),
     Ok (Capacity.mk 0 250 0)) /\
  exists errors,
    errors <> [] /\
    Capacity_init session_hall 300 hall None (Some (-3))
    = (session_hall, Raise (ValueError errors)).
Proof.
  split.
  - apply (Capacity_init_accepts session_hall 300 hall (Some 250) (Some 0)).
    split.
    + intros t [= <-]. split; [lia|]. intros c [= <-]. lia.
    + intros n [= <-]. lia.
  - apply (Capacity_init_accepts session_hall 300 hall None (Some (-3))).
    intros (_ & Hcrates). specialize (Hcrates (-3) eq_refl). lia.
Defined.

Lemma member_iff (x : option string) (l : list string) :
  member x l = true <-> one_of l x.
Proof.
  unfold member, one_of. destruct x as [s|].
  - rewrite existsb_exists. split.
    + intros (y & Hin & E). apply String.eqb_eq in E. subst y. now exists s.
    + intros (s' & [= <-] & Hin). exists s. split; [assumption|].
      apply String.eqb_refl.
  - split; [discriminate|]. now intros (s & H & _).
Qed.

Lemma Report_init_outcome (st : Session) (today : datetime)
    (dp : DropPoint.t) (time : option datetime) (state : option string) :
  (forall s, state = Some s -> In s report_states -> time_ok today time ->
   Report_init st today dp time state
   = (add_report st (Report.mk (DropPoint.oid dp) (time_or today time) s),
      Ok (Report.mk (DropPoint.oid dp) (time_or today time) s))) /\
  (~ (one_of report_states state /\ time_ok today time) ->
   exists errors,
     errors <> [] /\
     Report_init st today dp time state = (st, Raise (ValueError errors))).
Proof.
  unfold Report_init. cbv zeta.
  match goal with
  | |- context [match ?es with [] => _ | _ :: _ => _ end] =>
      set (errors := es)
  end.
  assert (Hiff : errors = []
                 <-> one_of report_states state /\ time_ok today time).
  { subst errors. rewrite !app_nil_iff, !check_nil_iff, negb_false_iff.
    rewrite future_check_iff, member_iff. tauto. }
  split.
  - intros s -> Hin Htime.
    assert (E : errors = [])
      by (apply Hiff; split; [now exists s|assumption]).
    now rewrite E.
  - intros Hinvalid. exists errors. split.
    + intros E. apply Hinvalid. now apply Hiff.
    + destruct errors as [|e errors']; [|reflexivity].
      exfalso. apply Hinvalid. now apply Hiff.
Qed.

(** X3: the constructor of a report accepts exactly a time that is not
    after the clock together with a state out of [report_states].  It
    then adds the report with that state, at the clock's time when none
    is given; otherwise it raises a [ValueError] with at least one error
    and the session is as before. *)
Theorem Report_init_accepts (st : Session) (today : datetime)
    (dp : DropPoint.t) (time : option datetime) (state : option string) :
  (forall s, state = Some s -> In s report_states -> time_ok today time ->
   Report_init st today dp time state
   = (add_report st (Report.mk (DropPoint.oid dp) (time_or today time) s),
      Ok (Report.mk (DropPoint.oid dp) (time_or today time) s))) /\
  (~ (one_of report_states state /\ time_ok today time) ->
   exists errors,
     errors <> [] /\
     Report_init st today dp time state = (st, Raise (ValueError errors))).
Proof. exact (Report_init_outcome st today dp time state). Qed.

Lemma Report_init_accepts_witness :
  Report_init session_hall 200 hall None (Some "FULL")
  = (add_report session_hall (Report.mk 0 200 "FULL"),
     Ok (Report.mk 0 200 "FULL")) /\
  exists errors,
    errors <> [] /\
    Report_init session_hall 200 hall None (Some "HALF_FULL")
    = (session_hall, Raise (ValueError errors)).
Proof.
  destruct (Report_init_accepts session_hall 200 hall None (Some "FULL"))
    as [Haccept _].
  destruct (Report_init_accepts session_hall 200 hall None (Some "HALF_FULL"))
    as [_ Hreject].
  split.
  - apply (Haccept "FULL"); [reflexivity|simpl; tauto|discriminate].
  - apply Hreject. intros ((s & [= <-] & Hin) & _).
    simpl in Hin. intuition discriminate.
Defined.

Lemma Visit_init_outcome (st : Session) (today : datetime)
    (dp : DropPoint.t) (time : option datetime) (action : option string) :
  (forall a, action = Some a -> In a visit_actions -> time_ok today time ->
   Visit_init st today dp time action
   = (add_visit st (Visit.mk (DropPoint.oid dp) (time_or today time) a),
      Ok (Visit.mk (DropPoint.oid dp) (time_or today time) a))) /\
  (~ (one_of visit_actions action /\ time_ok today time) ->
   exists errors,
     errors <> [] /\
     Visit_init st today dp time action = (st, Raise (ValueError errors))).
Proof.
  unfold Visit_init. cbv zeta.
  match goal with
  | |- context [match ?es with [] => _ | _ :: _ => _ end] =>
      set (errors := es)
  end.
  assert (Hiff : errors = []
                 <-> one_of visit_actions action /\ time_ok today time).
  { subst errors. rewrite !app_nil_iff, !check_nil_iff, negb_false_iff.
    rewrite future_check_iff, member_iff. tauto. }
  split.
  - intros a -> Hin Htime.
    assert (E : errors = [])
      by (apply Hiff; split; [now exists a|assumption]).
    now rewrite E.
  - intros Hinvalid. exists errors. split.
    + intros E. apply Hinvalid. now apply Hiff.
    + destruct errors as [|e errors']; [|reflexivity].
      exfalso. apply Hinvalid. now apply Hiff.
Qed.

(** X4: the constructor of a visit accepts exactly a time that is not
    after the clock together with an action out of [visit_actions]; it
    then adds the visit, and otherwise raises a [ValueError] with at
    least one error and leaves the session as before. *)
Theorem Visit_init_accepts (st : Session) (today : datetime)
    (dp : DropPoint.t) (time : option datetime) (action : option string) :
  (forall a, action = Some a -> In a visit_actions -> time_ok today time ->
   Visit_init st today dp time action
   = (add_visit st (Visit.mk (DropPoint.oid dp) (time_or today time) a),
      Ok (Visit.mk (DropPoint.oid dp) (time_or today time) a))) /\
  (~ (one_of visit_actions action /\ time_ok today time) ->
   exists errors,
     errors <> [] /\
     Visit_init st today dp time action = (st, Raise (ValueError errors))).
Proof. exact (Visit_init_outcome st today dp time action). Qed.

Lemma Visit_init_accepts_witness :
  Visit_init session_reported 500 hall (Some 400) (Some "EMPTIED")
  = (add_visit session_reported (Visit.mk 0 400 "EMPTIED"),
     Ok (Visit.mk 0 400 "EMPTIED")) /\
  exists errors,
    errors <> [] /\
    Visit_init session_reported 500 hall (Some 501) (Some "EMPTIED")
    = (session_reported, Raise (ValueError errors)).
Proof.
  destruct (Visit_init_accepts session_reported 500 hall (Some 400)
                               (Some "EMPTIED")) as [Haccept _].
  destruct (Visit_init_accepts session_reported 500 hall (Some 501)
                               (Some "EMPTIED")) as [_ Hreject].
  split.
  - apply (Haccept "EMPTIED"); [reflexivity|simpl; tauto|].
    intros t [= <-]. lia.
  - apply Hreject. intros (_ & Htime). specialize (Htime 501 eq_refl). lia.
Defined.

(** ** Creation of drop points *)



Lemma number_errors_nil_iff (st : Session) (number : option Z) :
  match number with
  | None => [("number", "Drop point number is not a number.")]
  | Some n =>
      check (n <? 1) ("number", "Drop point number is not positive.")
      ++ check (match get st n with Some _ => true | None => false end)
               ("number", "That drop point already exists.")
  end = []
  <-> number_ok st number.
Proof.
  unfold number_ok. destruct number as [n|].
  - rewrite app_nil_iff, !check_nil_iff, Z.ltb_ge. split.
    + intros [H1 H2]. exists n. repeat split; [assumption|].
      destruct (get st n); [discriminate|reflexivity].
    + intros (n' & [= <-] & H1 & H2). split; [assumption|]. now rewrite H2.
  - split; [discriminate|]. now intros (n & H & _).
Qed.











(** ** The current entry of a timeline *)

Lemma last_entry_cons (A : Type) (y : A) (l : list A) :
  last_entry (y :: l)
  = match last_entry l with Some c => Some c | None => Some y end.
Proof.
  destruct l as [|z l]; [reflexivity|].
  change (last_entry (y :: z :: l)) with (last_entry (z :: l)).
  destruct (last_entry (z :: l)) eqn:E; [reflexivity|].
  apply last_entry_none in E. discriminate.
Qed.

Lemma last_entry_insert_by (A : Type) (key : A -> Z) (a : A) (s : list A) :
  Sorted Z.le (map key s) ->
  last_entry (insert_by key a s)
  = match last_entry s with
    | None => Some a
    | Some c => if key c <? key a then Some a else Some c
    end.
Proof.
  induction s as [|y s IH]; intros HS; [reflexivity|].
  cbn [insert_by]. destruct (Z.leb_spec (key a) (key y)) as [Hle|Hlt].
  - rewrite (last_entry_cons a (y :: s)).
    destruct (last_entry (y :: s)) as [c|] eqn:Ec.
    + apply last_entry_In in Ec.
      assert (Hc : key y <= key c).
      { destruct Ec as [->|Hin]; [lia|].
        exact (@sorted_head_least A key y s HS c Hin). }
      destruct (Z.ltb_spec (key c) (key a)); [lia|reflexivity].
    + apply last_entry_none in Ec. discriminate.
  - inversion HS as [|? ? HS' _]; subst.
    rewrite (last_entry_cons y (insert_by key a s)), (IH HS').
    rewrite (last_entry_cons y s).
    destruct (last_entry s) as [c|].
    + destruct (key c <? key a); reflexivity.
    + destruct (Z.ltb_spec (key y) (key a)); [reflexivity|lia].
Qed.

Lemma last_entry_order_by (A : Type) (key : A -> Z) (l : list A) :
  last_entry (order_by key l) = latest key l.
Proof.
  induction l as [|a l IH]; [reflexivity|].
  cbn [order_by latest].
  rewrite last_entry_insert_by by apply order_by_sorted.
  now rewrite IH.
Qed.

Lemma latest_app (A : Type) (key : A -> Z) (l : list A) (x : A) :
  latest key (l ++ [x])
  = match latest key l with
    | None => Some x
    | Some c => if key c <=? key x then Some x else Some c
    end.
Proof.
  induction l as [|a l IH]; [reflexivity|].
  cbn [app latest]. rewrite IH.
  destruct (latest key l) as [c|].
  - destruct (Z.leb_spec (key c) (key x));
      destruct (Z.ltb_spec (key c) (key a));
      repeat match goal with
             | |- context [?u <? ?v] => destruct (Z.ltb_spec u v)
             | |- context [?u <=? ?v] => destruct (Z.leb_spec u v)
             end; try reflexivity; lia.
  - destruct (Z.ltb_spec (key x) (key a));
      destruct (Z.leb_spec (key a) (key x)); try reflexivity; lia.
Qed.

Lemma latest_greatest (A : Type) (key : A -> Z) (l : list A) (c : A) :
  latest key l = Some c -> forall y, In y l -> key y <= key c.
Proof.
  revert c. induction l as [|a l IH]; intros c H y Hy; [contradiction|].
  cbn [latest] in H. destruct (latest key l) as [c'|] eqn:E.
  - specialize (IH c' eq_refl).
    destruct (Z.ltb_spec (key c') (key a)); injection H as <-;
      (destruct Hy as [<-|Hy]; [lia|specialize (IH y Hy); lia]).
  - injection H as <-. destruct l; [|cbn [latest] in E;
      destruct (latest key l); [destruct (_ <? _)|]; discriminate].
    destruct Hy as [<-|[]]. lia.
Qed.

(** The current location after a location was added. *)
Lemma get_current_location_add (st : Session) (dp : DropPoint.t)
    (self : Location.t) :
  Location.dp self = DropPoint.oid dp ->
  get_current_location (add_location st self) dp
  = match get_current_location st dp with
    | None => Some self
    | Some c =>
        if Location.start_time c <=? Location.start_time self
        then Some self else Some c
    end.
Proof.
  intros Hdp. unfold get_current_location, locations.
  rewrite !last_entry_order_by, (location_rows_add st dp self Hdp).
  apply latest_app.
Qed.

Lemma last_capacity_add (st : Session) (dp : DropPoint.t)
    (self : Capacity.t) :
  Capacity.dp self = DropPoint.oid dp ->
  last_entry (capacities (add_capacity st self) dp)
  = match last_entry (capacities st dp) with
    | None => Some self
    | Some c =>
        if Capacity.start_time c <=? Capacity.start_time self
        then Some self else Some c
    end.
Proof.
  intros Hdp. unfold capacities.
  rewrite !last_entry_order_by, (capacity_rows_add st dp self Hdp).
  apply latest_app.
Qed.



(** X9: the check against the current entry is made for a given start
    time only.  A location or capacity constructed without a start time
    while the current entry starts after the clock's time is accepted
    with the clock's time, and the current location and the current
    crate count stay what they were. *)
Theorem default_start_behind_current (st : Session) (today : datetime)
    (dp : DropPoint.t) :
  (forall current description lat lng level st' self,
     get_current_location st dp = Some current ->
     today < Location.start_time current ->
     Location_init st today dp None description lat lng level
     = (st', Ok self) ->
     Location.start_time self = today /\
     In self (locations st' dp) /\
     get_current_location st' dp = Some current) /\
  (forall current crates st' self,
     last_entry (capacities st dp) = Some current ->
     today < Capacity.start_time current ->
     Capacity_init st today dp None crates = (st', Ok self) ->
     Capacity.start_time self = today /\
     In self (capacities st' dp) /\
     get_current_crate_count st' dp = get_current_crate_count st dp).
Proof.
  split.
  - intros current description lat lng level st' self Hc Hlt H.
    destruct (Location_init_cases st today dp None description lat lng level)
      as [(errors & _ & E)|(self' & E & Hdp & Hstart & _)];
      rewrite E in H; [discriminate|].
    injection H as <- <-. split; [exact Hstart|]. split.
    + unfold locations. apply order_by_In.
      rewrite (location_rows_add st dp self' Hdp).
      apply in_or_app. right. now left.
    + rewrite (get_current_location_add st dp self' Hdp), Hc, Hstart.
      destruct (Z.leb_spec (Location.start_time current) today);
        [lia|reflexivity].
  - intros current crates st' self Hc Hlt H.
    destruct (Capacity_init_cases st today dp None crates)
      as [(errors & _ & E)|(self' & E & Hdp & Hstart & _)];
      rewrite E in H; [discriminate|].
    injection H as <- <-. split; [exact Hstart|]. split.
    + unfold capacities. apply order_by_In.
      rewrite (capacity_rows_add st dp self' Hdp).
      apply in_or_app. right. now left.
    + unfold get_current_crate_count.
      rewrite (last_capacity_add st dp self' Hdp), Hc, Hstart.
      destruct (Z.leb_spec (Capacity.start_time current) today);
        [lia|reflexivity].
Qed.

Lemma default_start_behind_current_witness :
  get_current_location
    (fst (Location_init session_hall 50 hall None (Some "yard")
                        (degrees 46) (degrees 11) (Some 1))) hall
  = Some (Location.mk 0 100 "hall" (degrees 45) (degrees 10) (Some 0)) /\
  get_current_crate_count
    (fst (Capacity_init session_hall 50 hall None (Some 5))) hall = 2.
Proof.
  destruct (default_start_behind_current session_hall 50 hall)
    as [Hlocation Hcapacity].
  split.
  - apply (Hlocation
             (Location.mk 0 100 "hall" (degrees 45) (degrees 10) (Some 0))
             (Some "yard") (degrees 46) (degrees 11) (Some 1)
             (fst (Location_init session_hall 50 hall None (Some "yard")
                                 (degrees 46) (degrees 11) (Some 1)))
             (Location.mk 0 50 "yard" (degrees 46) (degrees 11) (Some 1)));
      [reflexivity|simpl; lia|reflexivity].
  - apply (Hcapacity (Capacity.mk 0 101 2) (Some 5)
             (fst (Capacity_init session_hall 50 hall None (Some 5)))
             (Capacity.mk 0 50 5));
      [reflexivity|simpl; lia|reflexivity].
Defined.

(** ** Removal *)

(** X10: [remove] raises a [RuntimeError] on a drop point that is removed
    already and a [ValueError] on a removal time after the clock's time,
    changing nothing in either case; otherwise it sets [removed] to the
    time given, else to the clock's time, which is never in the future,
    keeps number and identity and every timeline and log, and a second
    [remove] of the result raises the [RuntimeError]. *)
Theorem remove_outcome (st : Session) (today : datetime)
    (self : DropPoint.t) (time : option datetime) :
  (forall t, DropPoint.removed self = Some t ->
   remove st today self time
   = (st, Raise (RuntimeError
                   [("DropPoint", "Drop point already removed.")]))) /\
  (DropPoint.removed self = None -> ~ time_ok today time ->
   remove st today self time
   = (st, Raise (ValueError
                   [("DropPoint", "Removal time in the future.")]))) /\
  (DropPoint.removed self = None -> time_ok today time ->
   exists self',
     remove st today self time = (update_drop_point st self', Ok self') /\
     DropPoint.removed self' = Some (time_or today time) /\
     time_or today time <= today /\
     DropPoint.oid self' = DropPoint.oid self /\
     DropPoint.number self' = DropPoint.number self /\
     (forall dp,
        locations (update_drop_point st self') dp = locations st dp /\
        capacities (update_drop_point st self') dp = capacities st dp /\
        reports (update_drop_point st self') dp = reports st dp /\
        visits (update_drop_point st self') dp = visits st dp) /\
     forall today' time',
       remove (update_drop_point st self') today' self' time'
       = (update_drop_point st self',
          Raise (RuntimeError
                   [("DropPoint", "Drop point already removed.")]))).
Proof.
  unfold remove. split; [|split].
  - now intros t ->.
  - intros -> Hfuture.
    destruct (match time with Some t => today <? t | None => false end)
      eqn:E; [reflexivity|].
    exfalso. apply Hfuture. now apply future_check_iff.
  - intros -> Htime.
    rewrite (proj2 (future_check_iff today time) Htime).
    eexists. split; [reflexivity|]. simpl.
    split; [reflexivity|]. split.
    + unfold time_or. destruct time as [t|]; [now apply Htime|lia].
    + repeat split; reflexivity.
Qed.

Lemma remove_outcome_witness :
  remove session_reported 600 hall None
  = (update_drop_point session_reported hall_removed, Ok hall_removed) /\
  remove session_reported 600 hall (Some 601)
  = (session_reported,
     Raise (ValueError [("DropPoint", "Removal time in the future.")])) /\
  remove session_reported 700 hall_removed None
  = (session_reported,
     Raise (RuntimeError [("DropPoint", "Drop point already removed.")])).
Proof.
  destruct (remove_outcome session_reported 600 hall None)
    as (_ & _ & Hok).
  destruct (remove_outcome session_reported 600 hall (Some 601))
    as (_ & Hfuture & _).
  destruct (remove_outcome session_reported 700 hall_removed None)
    as (Hagain & _).
  split; [|split].
  - destruct (Hok eq_refl) as (self' & E & Hremoved & _).
    + discriminate.
    + rewrite E. injection E as _ <-. reflexivity.
  - apply Hfuture; [reflexivity|].
    intros H. specialize (H 601 eq_refl). lia.
  - now apply (Hagain 600).
Defined.

(** ** Reports and visits *)

Lemma reports_add_report (st : Session) (dp : DropPoint.t) (r : Report.t) :
  Report.dp r = DropPoint.oid dp ->
  reports (add_report st r) dp = reports st dp ++ [r].
Proof.
  intros H. unfold reports. simpl. rewrite filter_app. simpl.
  now rewrite H, Nat.eqb_refl.
Qed.

Lemma visits_add_visit (st : Session) (dp : DropPoint.t) (v : Visit.t) :
  Visit.dp v = DropPoint.oid dp ->
  visits (add_visit st v) dp = visits st dp ++ [v].
Proof.
  intros H. unfold visits. simpl. rewrite filter_app. simpl.
  now rewrite H, Nat.eqb_refl.
Qed.

Lemma Report_init_Ok (st st' : Session) (today : datetime)
    (dp : DropPoint.t) (time : option datetime) (state : option string)
    (r : Report.t) :
  Report_init st today dp time state = (st', Ok r) ->
  st' = add_report st r /\ Report.dp r = DropPoint.oid dp /\
  Report.time r = time_or today time /\ state = Some (Report.state r) /\
  In (Report.state r) report_states /\ Report.time r <= today.
Proof.
  unfold Report_init. cbv zeta.
  match goal with
  | |- context [match ?es with [] => _ | _ :: _ => _ end] =>
      destruct es as [|e es'] eqn:E
  end; [|discriminate].
  intros [= <- <-]. simpl.
  apply app_nil_iff in E. destruct E as [E1 E2].
  apply app_nil_iff in E1. destruct E1 as [_ E1].
  apply check_nil_iff in E1, E2. apply negb_false_iff in E2.
  apply member_iff in E2. destruct E2 as (s & -> & Hin).
  apply future_check_iff in E1.
  repeat split; try assumption.
  unfold time_or. destruct time as [t|]; [now apply E1|lia].
Qed.

Lemma Visit_init_Ok (st st' : Session) (today : datetime)
    (dp : DropPoint.t) (time : option datetime) (action : option string)
    (v : Visit.t) :
  Visit_init st today dp time action = (st', Ok v) ->
  st' = add_visit st v /\ Visit.dp v = DropPoint.oid dp /\
  Visit.time v = time_or today time /\ action = Some (Visit.action v) /\
  In (Visit.action v) visit_actions /\ Visit.time v <= today.
Proof.
  unfold Visit_init. cbv zeta.
  match goal with
  | |- context [match ?es with [] => _ | _ :: _ => _ end] =>
      destruct es as [|e es'] eqn:E
  end; [|discriminate].
  intros [= <- <-]. simpl.
  apply app_nil_iff in E. destruct E as [E1 E2].
  apply app_nil_iff in E1. destruct E1 as [_ E1].
  apply check_nil_iff in E1, E2. apply negb_false_iff in E2.
  apply member_iff in E2. destruct E2 as (s & -> & Hin).
  apply future_check_iff in E1.
  repeat split; try assumption.
  unfold time_or. destruct time as [t|]; [now apply E1|lia].
Qed.

(** The row a descending query starts with once a row was added. *)
Lemma first_desc_app (A : Type) (key : A -> Z) (l : list A) (x : A) :
  exists z,
    first (order_by_desc key (l ++ [x])) = Some z /\
    key x <= key z /\
    ((forall y, In y l -> key y < key x) -> z = x).
Proof.
  destruct (first (order_by_desc key (l ++ [x]))) as [z|] eqn:E.
  - exists z. split; [reflexivity|].
    destruct (first_order_by_desc key (l ++ [x]) E) as [Hin Hmax].
    split.
    + apply Hmax. apply in_or_app. right. now left.
    + intros Hlt. apply in_app_or in Hin. destruct Hin as [Hin|[<-|[]]].
      * specialize (Hlt z Hin).
        assert (key x <= key z)
          by (apply Hmax; apply in_or_app; right; now left).
        lia.
      * reflexivity.
  - apply first_order_by_desc_none in E. destruct l; discriminate.
Qed.

Lemma sorted_map_iff (A : Type) (key : A -> Z) (l : list A) :
  Sorted Z.le (map (fun x => - key x) l)
  -> Sorted (fun a b => key b <= key a) l.
Proof.
  induction l as [|a l IH]; simpl; intros HS; [constructor|].
  inversion HS as [|? ? HS' HR]; subst.
  constructor; [now apply IH|].
  destruct l as [|b l]; simpl in *; constructor.
  inversion HR; subst. lia.
Qed.

(** X11: the new reports of a drop point are exactly its reports that
    are strictly later than its last visit, all of its reports when it
    was never visited; [get_new_reports] returns them latest first and
    [get_new_report_count] is their number, at most the total count. *)
Theorem get_new_reports_spec (st : Session) (dp : DropPoint.t) :
  (forall r,
     In r (get_new_reports st dp) <->
     In r (reports st dp) /\
     forall v, get_last_visit st dp = Some v ->
               Visit.time v < Report.time r) /\
  Sorted (fun a b => Report.time b <= Report.time a)
         (get_new_reports st dp) /\
  get_new_report_count st dp = List.length (get_new_reports st dp) /\
  (get_new_report_count st dp <= get_total_report_count st dp)%nat.
Proof.
  unfold get_new_reports, get_new_report_count, get_total_report_count,
    order_by_desc.
  destruct (get_last_visit st dp) as [v|];
    (split; [|split; [|split]]).
  - intros r. rewrite order_by_In, filter_In, Z.ltb_lt. split.
    + intros [Hin Hlt]. split; [assumption|]. now intros v' [= <-].
    + intros [Hin Hlt]. split; [assumption|]. now apply Hlt.
  - apply sorted_map_iff. apply order_by_sorted.
  - now rewrite order_by_length.
  - apply filter_length_le.
  - intros r. rewrite order_by_In. split.
    + intros Hin. split; [assumption|]. discriminate.
    + now intros [Hin _].
  - apply sorted_map_iff. apply order_by_sorted.
  - now rewrite order_by_length.
  - apply le_n.
Qed.

Lemma filter_none (A : Type) (f : A -> bool) (l : list A) :
  (forall x, In x l -> f x = false) -> filter f l = [].
Proof.
  induction l as [|x l IH]; intros H; [reflexivity|].
  simpl. rewrite (H x (or_introl eq_refl)). apply IH.
  intros y Hy. apply H. now right.
Qed.

(** X12: once a visit is logged whose time no report of the drop point
    is later than, the drop point has no new reports, while its total
    report count is what it was. *)
Theorem visit_clears_new_reports (st st' : Session) (today : datetime)
    (dp : DropPoint.t) (action : option string) (time : option datetime)
    (v : Visit.t) :
  visit st today dp action time = (st', Ok v) ->
  (forall r, In r (reports st dp) -> Report.time r <= Visit.time v) ->
  get_new_reports st' dp = [] /\
  get_new_report_count st' dp = 0%nat /\
  get_total_report_count st' dp = get_total_report_count st dp.
Proof.
  unfold visit. intros H Hreports.
  destruct (Visit_init_Ok st today dp time action H)
    as (-> & Hdp & _).
  assert (Ereports : reports (add_visit st v) dp = reports st dp)
    by reflexivity.
  destruct (first_desc_app Visit.time (visits st dp) v)
    as (z & Hz & Hle & _).
  assert (Elast : get_last_visit (add_visit st v) dp = Some z)
    by (unfold get_last_visit; now rewrite (visits_add_visit st dp v Hdp)).
  assert (Enone : filter (fun r => Visit.time z <? Report.time r)
                         (reports st dp) = []).
  { apply filter_none. intros r Hr. apply Z.ltb_ge.
    specialize (Hreports r Hr). lia. }
  unfold get_new_reports, get_new_report_count, get_total_report_count.
  rewrite Elast, Ereports, Enone. repeat split.
Qed.

Lemma visit_clears_new_reports_witness :
  get_new_reports session_emptied hall = [] /\
  get_new_report_count session_emptied hall = 0%nat /\
  get_total_report_count session_emptied hall = 2%nat.
Proof.
  apply (@visit_clears_new_reports session_reported session_emptied 500 hall
           (Some "EMPTIED") None (Visit.mk 0 500 "EMPTIED")).
  - reflexivity.
  - intros r [<-|[<-|[]]]; simpl; lia.
Defined.

(** ** The state after a report or a visit *)

Lemma get_last_visit_add_report (st : Session) (dp : DropPoint.t)
    (r : Report.t) :
  get_last_visit (add_report st r) dp = get_last_visit st dp.
Proof. reflexivity. Qed.

(** X13: a report that is accepted with a time strictly after every
    earlier report of the drop point and not before any of its visits
    sets the state: [get_last_state] returns the state just reported. *)
Theorem report_sets_last_state (st st' : Session) (today : datetime)
    (dp : DropPoint.t) (state : option string) (time : option datetime)
    (r : Report.t) :
  report st today dp state time = (st', Ok r) ->
  (forall r', In r' (reports st dp) -> Report.time r' < Report.time r) ->
  (forall v, In v (visits st dp) -> Visit.time v <= Report.time r) ->
  state = Some (Report.state r) /\
  get_last_report st' dp = Some r /\
  get_last_state st' dp = Report.state r.
Proof.
  unfold report. intros H Hreports Hvisits.
  destruct (Report_init_Ok st today dp time state H)
    as (-> & Hdp & _ & Hstate & _).
  destruct (first_desc_app Report.time (reports st dp) r)
    as (z & Hz & _ & Hnew).
  rewrite (Hnew Hreports) in Hz.
  assert (Elast : get_last_report (add_report st r) dp = Some r)
    by (unfold get_last_report; now rewrite (reports_add_report st dp r Hdp)).
  split; [assumption|]. split; [assumption|].
  unfold get_last_state. rewrite Elast, get_last_visit_add_report.
  pose proof (get_last_visit_spec st dp) as HV.
  destruct (get_last_visit st dp) as [v|]; [|reflexivity].
  destruct HV as (_ & Hin & _). specialize (Hvisits v Hin).
  destruct (Z.ltb_spec (Report.time r) (Visit.time v)); [lia|reflexivity].
Qed.

Lemma report_sets_last_state_witness :
  get_last_state session_reported hall = "OVERFLOW".
Proof.
  apply (@report_sets_last_state
           (fst (report session_hall 200 hall (Some "FULL") None))
           session_reported 300 hall (Some "OVERFLOW") None
           (Report.mk 0 300 "OVERFLOW")).
  - reflexivity.
  - intros r' [<-|[]]. simpl. lia.
  - intros v [].
Defined.

(** X14: what a visit does to the state.  Let a visit be accepted with a
    time strictly after every earlier visit and every report of a drop
    point that has a report.  If its action is ["EMPTIED"] the state
    becomes ["EMPTY"]; with any other action the state is the state of
    the latest report, also when an earlier emptying had made it
    ["EMPTY"]. *)
Theorem visit_sets_last_state (st st' : Session) (today : datetime)
    (dp : DropPoint.t) (action : option string) (time : option datetime)
    (v : Visit.t) (last_report : Report.t) :
  visit st today dp action time = (st', Ok v) ->
  get_last_report st dp = Some last_report ->
  (forall r, In r (reports st dp) -> Report.time r < Visit.time v) ->
  (forall v', In v' (visits st dp) -> Visit.time v' < Visit.time v) ->
  get_last_visit st' dp = Some v /\
  (Visit.action v = "EMPTIED" -> get_last_state st' dp = "EMPTY") /\
  (Visit.action v <> "EMPTIED" ->
   get_last_state st' dp = Report.state last_report).
Proof.
  unfold visit. intros H Hlast Hreports Hvisits.
  destruct (Visit_init_Ok st today dp time action H)
    as (-> & Hdp & _).
  destruct (first_desc_app Visit.time (visits st dp) v)
    as (z & Hz & _ & Hnew).
  rewrite (Hnew Hvisits) in Hz.
  assert (Elast : get_last_visit (add_visit st v) dp = Some v)
    by (unfold get_last_visit; now rewrite (visits_add_visit st dp v Hdp)).
  assert (Ereport : get_last_report (add_visit st v) dp = Some last_report)
    by exact Hlast.
  assert (Hlt : Report.time last_report < Visit.time v).
  { apply Hreports. pose proof (get_last_report_spec st dp) as HR.
    rewrite Hlast in HR. apply HR. }
  apply Z.ltb_lt in Hlt.
  split; [assumption|].
  unfold get_last_state. rewrite Elast, Ereport, Hlt. split.
  - intros ->. reflexivity.
  - intros Hne. destruct (String.eqb_spec (Visit.action v) "EMPTIED");
      [contradiction|reflexivity].
Qed.

Lemma visit_sets_last_state_witness :
  get_last_state session_emptied hall = "EMPTY" /\
  get_last_state
    (fst (visit session_emptied 600 hall (Some "NO_ACTION") None)) hall
  = "OVERFLOW".
Proof.
  split.
  - apply (@visit_sets_last_state session_reported session_emptied 500 hall
             (Some "EMPTIED") None (Visit.mk 0 500 "EMPTIED")
             (Report.mk 0 300 "OVERFLOW")).
    + reflexivity.
    + reflexivity.
    + intros r [<-|[<-|[]]]; simpl; lia.
    + intros v' [].
    + reflexivity.
  - apply (@visit_sets_last_state session_emptied
             (fst (visit session_emptied 600 hall (Some "NO_ACTION") None))
             600 hall (Some "NO_ACTION") None (Visit.mk 0 600 "NO_ACTION")
             (Report.mk 0 300 "OVERFLOW")).
    + reflexivity.
    + reflexivity.
    + intros r [<-|[<-|[]]]; simpl; lia.
    + intros v' [<-|[]]. simpl. lia.
    + discriminate.
Defined.

(** ** What every session built by commands satisfies *)

Lemma Report_init_Raise (st st' : Session) (today : datetime)
    (dp : DropPoint.t) (time : option datetime) (state : option string)
    (e : exn) :
  Report_init st today dp time state = (st', Raise e) -> st' = st.
Proof.
  unfold Report_init. cbv zeta.
  match goal with
  | |- context [match ?es with [] => _ | _ :: _ => _ end] =>
      destruct es
  end; [discriminate|]. now intros [= <- _].
Qed.

Lemma Visit_init_Raise (st st' : Session) (today : datetime)
    (dp : DropPoint.t) (time : option datetime) (action : option string)
    (e : exn) :
  Visit_init st today dp time action = (st', Raise e) -> st' = st.
Proof.
  unfold Visit_init. cbv zeta.
  match goal with
  | |- context [match ?es with [] => _ | _ :: _ => _ end] =>
      destruct es
  end; [discriminate|]. now intros [= <- _].
Qed.

(** [remove] leaves the session as it is or assigns [removed] a time
    that is not after the clock's. *)
Lemma remove_session (st : Session) (today : datetime)
    (self : DropPoint.t) (time : option datetime) :
  fst (remove st today self time) = st \/
  exists t : datetime,
    t <= today /\
    fst (remove st today self time)
    = update_drop_point st
        (DropPoint.mk (DropPoint.oid self) (DropPoint.number self) (Some t)).
Proof.
  unfold remove. destruct (DropPoint.removed self); [now left|].
  destruct (match time with Some t => today <? t | None => false end)
    eqn:E; [now left|].
  right. exists (match time with Some t => t | None => today end).
  split; [|reflexivity].
  destruct time as [t|]; [now apply Z.ltb_ge in E|lia].
Qed.

Lemma timestamps_upto_later (now today : datetime) (st : Session) :
  timestamps_upto now st -> now <= today -> timestamps_upto today st.
Proof.
  intros (H1 & H2 & H3 & H4 & H5) Hle.
  repeat split; (eapply Forall_impl; [|eassumption]); simpl; intros;
    try lia.
  match goal with H : forall t, _ -> _ |- _ => specialize (H _ H0) end. lia.
Qed.

Lemma timestamps_Location_init (now today : datetime) (st : Session)
    (dp : DropPoint.t) (start_time : option datetime)
    (description : option string) (lat lng : option spec_float)
    (level : option Z) :
  timestamps_upto now st -> now <= today ->
  timestamps_upto today
    (fst (Location_init st today dp start_time description lat lng level)).
Proof.
  intros Hinv Hle. apply (timestamps_upto_later Hinv) in Hle.
  destruct (Location_init_cases st today dp start_time description
                                lat lng level)
    as [(errors & _ & ->)|(self & -> & _ & Hstart & Hchk)]; [assumption|].
  destruct Hle as (H1 & H2 & H3 & H4 & H5).
  repeat split; simpl; try assumption.
  apply Forall_app. split; [assumption|]. constructor; [|constructor].
  rewrite Hstart. destruct start_time; [tauto|lia].
Qed.

Lemma timestamps_Capacity_init (now today : datetime) (st : Session)
    (dp : DropPoint.t) (start_time : option datetime) (crates : option Z) :
  timestamps_upto now st -> now <= today ->
  timestamps_upto today
    (fst (Capacity_init st today dp start_time crates)).
Proof.
  intros Hinv Hle. apply (timestamps_upto_later Hinv) in Hle.
  destruct (Capacity_init_cases st today dp start_time crates)
    as [(errors & _ & ->)|(self & -> & _ & Hstart & _ & _ & Hchk)];
    [assumption|].
  destruct Hle as (H1 & H2 & H3 & H4 & H5).
  repeat split; simpl; try assumption.
  apply Forall_app. split; [assumption|]. constructor; [|constructor].
  rewrite Hstart. destruct start_time; [tauto|lia].
Qed.

Lemma timestamps_Report_init (now today : datetime) (st : Session)
    (dp : DropPoint.t) (time : option datetime) (state : option string) :
  timestamps_upto now st -> now <= today ->
  timestamps_upto today (fst (Report_init st today dp time state)).
Proof.
  intros Hinv Hle. apply (timestamps_upto_later Hinv) in Hle.
  destruct (Report_init st today dp time state) as [st' [r|e]] eqn:E.
  - destruct (Report_init_Ok st today dp time state E)
      as (-> & _ & _ & _ & _ & Htime).
    destruct Hle as (H1 & H2 & H3 & H4 & H5).
    repeat split; simpl; try assumption.
    apply Forall_app. split; [assumption|]. now repeat constructor.
  - now rewrite (Report_init_Raise st today dp time state E).
Qed.

Lemma timestamps_Visit_init (now today : datetime) (st : Session)
    (dp : DropPoint.t) (time : option datetime) (action : option string) :
  timestamps_upto now st -> now <= today ->
  timestamps_upto today (fst (Visit_init st today dp time action)).
Proof.
  intros Hinv Hle. apply (timestamps_upto_later Hinv) in Hle.
  destruct (Visit_init st today dp time action) as [st' [v|e]] eqn:E.
  - destruct (Visit_init_Ok st today dp time action E)
      as (-> & _ & _ & _ & _ & Htime).
    destruct Hle as (H1 & H2 & H3 & H4 & H5).
    repeat split; simpl; try assumption.
    apply Forall_app. split; [assumption|]. now repeat constructor.
  - now rewrite (Visit_init_Raise st today dp time action E).
Qed.

Lemma timestamps_remove (now today : datetime) (st : Session)
    (self : DropPoint.t) (time : option datetime) :
  timestamps_upto now st -> now <= today ->
  timestamps_upto today (fst (remove st today self time)).
Proof.
  intros Hinv Hle. apply (timestamps_upto_later Hinv) in Hle.
  destruct (remove_session st today self time) as [->|(t & Ht & ->)];
    [assumption|].
  destruct Hle as (H1 & H2 & H3 & H4 & H5).
  repeat split; simpl; try assumption.
  apply Forall_forall. intros d Hd. apply in_map_iff in Hd.
  destruct Hd as (x & <- & Hx).
  destruct (Nat.eqb (DropPoint.oid x) (DropPoint.oid self)).
  - simpl. now intros t' [= <-].
  - rewrite Forall_forall in H1. now apply H1.
Qed.

Lemma timestamps_DropPoint_init (now : datetime) (st : Session)
    (today_location today_capacity : datetime)
    (number : option Z) (description : option string)
    (lat lng : option spec_float) (level : option Z) (crates : option Z)
    (start_time : option datetime) :
  timestamps_upto now st ->
  now <= today_location -> today_location <= today_capacity ->
  timestamps_upto today_capacity
    (fst (DropPoint_init st today_location today_capacity number description
                         lat lng level crates start_time)).
Proof.
  intros Hinv Hl Hc. rewrite DropPoint_init_unfold. cbv zeta.
  set (self := DropPoint.mk (next_oid st) number None).
  assert (H0 : timestamps_upto now (new_object st)) by exact Hinv.
  pose proof (@timestamps_Location_init now today_location (new_object st)
                self start_time description lat lng level H0 Hl) as H1.
  pose proof (@timestamps_Capacity_init today_location today_capacity
                (fst (Location_init (new_object st) today_location self
                        start_time description lat lng level))
                self start_time crates H1 Hc) as H2.
  destruct (_ ++ _ ++ _); simpl; [|assumption].
  destruct H2 as (D & L & C & R & V).
  repeat split; simpl; try assumption.
  apply Forall_app. split; [assumption|].
  constructor; [|constructor]. simpl. discriminate.
Qed.

Lemma timestamps_execute (now : datetime) (st : Session) (c : command) :
  timestamps_upto now st ->
  now <= first_clock c -> first_clock c <= last_clock c ->
  timestamps_upto (last_clock c) (execute st c).
Proof.
  intros Hinv H1 H2.
  destruct c; simpl in *; unfold on_drop_point, report, visit;
    try (destruct (get st number) as [dp|];
         [|now apply (timestamps_upto_later Hinv)]).
  - now apply timestamps_DropPoint_init with (now := now).
  - now apply timestamps_Location_init with (now := now).
  - now apply timestamps_Capacity_init with (now := now).
  - now apply timestamps_Report_init with (now := now).
  - now apply timestamps_Visit_init with (now := now).
  - now apply timestamps_remove with (now := now).
Qed.

(** X15: while the clock does not run backwards, no time recorded in the
    session is after the clock's: start times, report and visit times
    and removal times of a session without future times stay at or
    before the last reading of the clock through every sequence of
    commands, raising ones included. *)
Theorem no_future_timestamps (l : list command) :
  forall (now : datetime) (st : Session),
    timestamps_upto now st -> clock_runs now l ->
    timestamps_upto (final_clock now l) (run st l).
Proof.
  induction l as [|c l IH]; intros now st Hinv Hclock; [exact Hinv|].
  destruct Hclock as (H1 & H2 & Hclock).
  unfold run, final_clock. simpl.
  apply (IH (last_clock c) (execute st c)); [|assumption].
  now apply timestamps_execute with (now := now).
Qed.

Lemma no_future_timestamps_witness :
  timestamps_upto 510 (run empty_session busy_day).
Proof.
  apply (@no_future_timestamps busy_day 0 empty_session).
  - repeat split; constructor.
  - simpl. lia.
Defined.

Lemma Location_init_Ok_valid (st st' : Session) (today : datetime)
    (dp : DropPoint.t) (start_time : option datetime)
    (description : option string) (lat lng : option spec_float)
    (level : option Z) (x : Location.t) :
  Location_init st today dp start_time description lat lng level
  = (st', Ok x) ->
  st' = add_location st x /\ Location.dp x = DropPoint.oid dp /\
  location_ok x.
Proof.
  destruct (Location_init_errors st today dp start_time description
                                 lat lng level) as (errors & Hiff & ->).
  destruct errors as [|e errors']; [|discriminate].
  intros [= <- <-]. split; [reflexivity|]. split; [reflexivity|].
  destruct (proj1 Hiff eq_refl) as (_ & Hlat & Hlng & Hlevel & Hlen).
  now repeat split.
Qed.

Lemma get_In (st : Session) (n : Z) (dp : DropPoint.t) :
  get st n = Some dp ->
  In dp (added_drop_points st) /\ DropPoint.number dp = Some n.
Proof.
  unfold get. intros H. apply find_some in H. destruct H as [Hin Hn].
  split; [assumption|].
  destruct (DropPoint.number dp) as [m|]; [|discriminate].
  apply Z.eqb_eq in Hn. now subst.
Qed.

Lemma get_None (st : Session) (n : Z) :
  get st n = None ->
  ~ In (Some n) (map DropPoint.number (added_drop_points st)).
Proof.
  unfold get. intros H Hin. apply in_map_iff in Hin.
  destruct Hin as (x & Hx & Hin).
  apply (find_none _ _ H) in Hin. rewrite Hx, Z.eqb_refl in Hin.
  discriminate.
Qed.

Lemma get_oid (st : Session) (n : Z) (dp : DropPoint.t) :
  well_formed st -> get st n = Some dp ->
  (DropPoint.oid dp < next_oid st)%nat.
Proof.
  intros (H & _) Hget. apply get_In in Hget. destruct Hget as [Hin _].
  rewrite Forall_forall in H. now apply H.
Qed.

Lemma valid_Location_init (st : Session) (today : datetime)
    (dp : DropPoint.t) (start_time : option datetime)
    (description : option string) (lat lng : option spec_float)
    (level : option Z) :
  session_valid st -> (DropPoint.oid dp < next_oid st)%nat ->
  session_valid
    (fst (Location_init st today dp start_time description lat lng level)).
Proof.
  intros Hinv Hdp.
  pose proof (Location_init_well_formed today dp start_time description
                lat lng level (proj1 Hinv) Hdp) as Hwf.
  destruct (Location_init st today dp start_time description lat lng level)
    as [st' [x|e]] eqn:E.
  - destruct (Location_init_Ok_valid st today dp start_time description
                                     lat lng level E) as (-> & _ & Hok).
    destruct Hinv as (_ & H1 & H2 & H3 & H4 & H5 & H6 & H7).
    repeat split; try assumption; try apply Hwf.
    simpl. apply Forall_app. split; [assumption|].
    constructor; [exact Hok|constructor].
  - pose proof (Location_init_session st today dp start_time description
                                      lat lng level) as HS.
    rewrite E in HS. destruct HS as [-> _]. exact Hinv.
Qed.

Lemma valid_Capacity_init (st : Session) (today : datetime)
    (dp : DropPoint.t) (start_time : option datetime) (crates : option Z) :
  session_valid st -> (DropPoint.oid dp < next_oid st)%nat ->
  session_valid (fst (Capacity_init st today dp start_time crates)).
Proof.
  intros Hinv Hdp.
  pose proof (Capacity_init_well_formed today dp start_time crates
                (proj1 Hinv) Hdp) as Hwf.
  destruct (Capacity_init_cases st today dp start_time crates)
    as [(errors & _ & E)|(self & E & _ & _ & Hcr & Hpos & _)];
    rewrite E in Hwf |- *; [exact Hinv|].
  destruct Hinv as (_ & H1 & H2 & H3 & H4 & H5 & H6 & H7).
  repeat split; try assumption; try apply Hwf.
  simpl. apply Forall_app. split; [assumption|].
  constructor; [|constructor]. rewrite Hcr.
  destruct crates as [n|]; simpl; [assumption|].
  unfold Capacity.default_crate_count. lia.
Qed.

Lemma valid_Report_init (st : Session) (today : datetime)
    (dp : DropPoint.t) (time : option datetime) (state : option string) :
  session_valid st -> (DropPoint.oid dp < next_oid st)%nat ->
  session_valid (fst (Report_init st today dp time state)).
Proof.
  intros Hinv Hdp.
  destruct (Report_init st today dp time state) as [st' [r|e]] eqn:E.
  - destruct (Report_init_Ok st today dp time state E)
      as (-> & Hr & _ & _ & Hstate & _).
    destruct Hinv as ((W1 & W2 & W3 & W4 & W5) & H1 & H2 & H3 & H4 & H5
                      & H6 & H7).
    repeat split; try assumption.
    + apply Forall_app. split; [assumption|].
      constructor; [now rewrite Hr|constructor].
    + apply Forall_app. split; [assumption|].
      constructor; [exact Hstate|constructor].
  - now rewrite (Report_init_Raise st today dp time state E).
Qed.

Lemma valid_Visit_init (st : Session) (today : datetime)
    (dp : DropPoint.t) (time : option datetime) (action : option string) :
  session_valid st -> (DropPoint.oid dp < next_oid st)%nat ->
  session_valid (fst (Visit_init st today dp time action)).
Proof.
  intros Hinv Hdp.
  destruct (Visit_init st today dp time action) as [st' [v|e]] eqn:E.
  - destruct (Visit_init_Ok st today dp time action E)
      as (-> & Hv & _ & _ & Haction & _).
    destruct Hinv as ((W1 & W2 & W3 & W4 & W5) & H1 & H2 & H3 & H4 & H5
                      & H6 & H7).
    repeat split; try assumption.
    + apply Forall_app. split; [assumption|].
      constructor; [now rewrite Hv|constructor].
    + apply Forall_app. split; [assumption|].
      constructor; [exact Haction|constructor].
  - now rewrite (Visit_init_Raise st today dp time action E).
Qed.

Lemma NoDup_map_inj (A B : Type) (f : A -> B) (l : list A) (x y : A) :
  NoDup (map f l) -> In x l -> In y l -> f x = f y -> x = y.
Proof.
  induction l as [|a l IH]; simpl; intros HN Hx Hy E; [contradiction|].
  inversion HN as [|? ? Hnotin HN']; subst.
  destruct Hx as [->|Hx]; destruct Hy as [->|Hy].
  - reflexivity.
  - exfalso. apply Hnotin. rewrite E. now apply in_map.
  - exfalso. apply Hnotin. rewrite <- E. now apply in_map.
  - now apply IH.
Qed.

(** Assigning [removed] on a drop point of the session changes neither
    the identities nor the numbers of its drop points. *)
Lemma update_drop_point_maps (st : Session) (self : DropPoint.t)
    (t : datetime) :
  NoDup (map DropPoint.oid (added_drop_points st)) ->
  In self (added_drop_points st) ->
  let self' :=
    DropPoint.mk (DropPoint.oid self) (DropPoint.number self) (Some t) in
  map DropPoint.oid (added_drop_points (update_drop_point st self'))
  = map DropPoint.oid (added_drop_points st) /\
  map DropPoint.number (added_drop_points (update_drop_point st self'))
  = map DropPoint.number (added_drop_points st).
Proof.
  intros HN Hself self'. subst self'. simpl. rewrite !map_map.
  split; apply map_ext_in; intros x Hx;
    destruct (Nat.eqb_spec (DropPoint.oid x) (DropPoint.oid self)) as [E|_];
    try reflexivity; simpl.
  - now symmetry.
  - now rewrite (NoDup_map_inj DropPoint.oid _ x self HN Hx Hself E).
Qed.

Lemma valid_remove (st : Session) (today : datetime) (n : Z)
    (self : DropPoint.t) (time : option datetime) :
  session_valid st -> get st n = Some self ->
  session_valid (fst (remove st today self time)).
Proof.
  intros Hinv Hget. destruct (get_In st n Hget) as [Hin Hnumber].
  destruct (remove_session st today self time) as [->|(t & _ & ->)];
    [assumption|].
  destruct Hinv as ((W1 & W2 & W3 & W4 & W5) & H1 & H2 & H3 & H4 & H5
                    & H6 & H7).
  destruct (update_drop_point_maps st self t H1 Hin) as [Eoid Enumber].
  cbv zeta in Eoid, Enumber.
  repeat split; try assumption; try (simpl; assumption).
  - simpl. apply Forall_forall. intros d Hd. apply in_map_iff in Hd.
    destruct Hd as (x & <- & Hx). rewrite Forall_forall in W1.
    destruct (Nat.eqb_spec (DropPoint.oid x) (DropPoint.oid self)) as [E|_].
    + simpl. rewrite <- E. now apply W1.
    + now apply W1.
  - now rewrite Eoid.
  - now rewrite Enumber.
  - simpl. apply Forall_forall. intros d Hd. apply in_map_iff in Hd.
    destruct Hd as (x & <- & Hx). rewrite Forall_forall in H3.
    destruct (Nat.eqb (DropPoint.oid x) (DropPoint.oid self)).
    + simpl. now apply (H3 self).
    + now apply H3.
Qed.

Lemma session_valid_new_object (st : Session) :
  session_valid st -> session_valid (new_object st).
Proof.
  intros (W & H). split; [now apply well_formed_new_object|exact H].
Qed.

Lemma valid_DropPoint_init (st : Session)
    (today_location today_capacity : datetime)
    (number : option Z) (description : option string)
    (lat lng : option spec_float) (level : option Z) (crates : option Z)
    (start_time : option datetime) :
  session_valid st ->
  session_valid
    (fst (DropPoint_init st today_location today_capacity number description
                         lat lng level crates start_time)).
Proof.
  intros Hinv. rewrite DropPoint_init_unfold. cbv zeta.
  set (self := DropPoint.mk (next_oid st) number None).
  assert (Hself : (DropPoint.oid self < next_oid (new_object st))%nat)
    by (unfold self; simpl; lia).
  pose proof (@valid_Location_init (new_object st) today_location self
                start_time description lat lng level
                (session_valid_new_object Hinv) Hself) as H1.
  pose proof (Location_init_session (new_object st) today_location self
                start_time description lat lng level) as E1.
  destruct (Location_init (new_object st) today_location self start_time
                          description lat lng level) as [st1 r1].
  simpl fst in *. simpl snd in *.
  assert (Hself1 : (DropPoint.oid self < next_oid st1)%nat)
    by (destruct r1; destruct E1 as [-> _]; simpl; lia).
  assert (Edp1 : added_drop_points st1 = added_drop_points st)
    by (destruct r1; destruct E1 as [-> _]; reflexivity).
  pose proof (@valid_Capacity_init st1 today_capacity self start_time crates
                H1 Hself1) as H2.
  pose proof (Capacity_init_session st1 today_capacity self start_time
                                    crates) as E2.
  destruct (Capacity_init st1 today_capacity self start_time crates)
    as [st2 r2].
  simpl fst in *. simpl snd in *.
  assert (Hself2 : (DropPoint.oid self < next_oid st2)%nat)
    by (destruct r2; destruct E2 as [-> _]; exact Hself1).
  assert (Edp2 : added_drop_points st2 = added_drop_points st)
    by (destruct r2; destruct E2 as [-> _]; exact Edp1).
  destruct (_ ++ _ ++ _) eqn:Eerr; simpl; [|assumption].
  apply app_nil_iff in Eerr. destruct Eerr as [Enum _].
  apply number_errors_nil_iff in Enum.
  destruct Enum as (n & Hn & Hpos & Hfree).
  destruct Hinv as ((W1 & _) & N1 & N2 & N3 & _).
  destruct H2 as ((V1 & V2 & V3 & V4 & V5) & _ & _ & _ & R1 & R2 & R3 & R4).
  repeat split; simpl; try assumption; rewrite ?Edp2.
  - apply Forall_app. split; [now rewrite <- Edp2|].
    constructor; [exact Hself2|constructor].
  - rewrite map_app. simpl.
    apply NoDup_rev in N1. rewrite <- (rev_involutive (_ ++ _)).
    apply NoDup_rev. rewrite rev_app_distr. simpl. constructor.
    + rewrite <- in_rev. intros Hin. apply in_map_iff in Hin.
      destruct Hin as (x & Hx & Hin). rewrite Forall_forall in W1.
      specialize (W1 x Hin). lia.
    + exact N1.
  - rewrite map_app. simpl.
    rewrite <- (rev_involutive (_ ++ _)).
    apply NoDup_rev. rewrite rev_app_distr. simpl. constructor.
    + rewrite <- in_rev. unfold self. simpl. rewrite Hn.
      now apply get_None.
    + now apply NoDup_rev.
  - apply Forall_app. split; [assumption|].
    constructor; [|constructor]. exists n. now split.
Qed.

Lemma valid_execute (st : Session) (c : command) :
  session_valid st -> session_valid (execute st c).
Proof.
  intros Hinv.
  destruct c; simpl; unfold on_drop_point, report, visit;
    try (destruct (get st number) as [dp|] eqn:Hget; [|assumption]).
  - now apply valid_DropPoint_init.
  - apply valid_Location_init; [assumption|].
    exact (get_oid number (proj1 Hinv) Hget).
  - apply valid_Capacity_init; [assumption|].
    exact (get_oid number (proj1 Hinv) Hget).
  - apply valid_Report_init; [assumption|].
    exact (get_oid number (proj1 Hinv) Hget).
  - apply valid_Visit_init; [assumption|].
    exact (get_oid number (proj1 Hinv) Hget).
  - now apply valid_remove with (n := number).
Qed.

Lemma run_valid (l : list command) :
  forall st, session_valid st -> session_valid (run st l).
Proof.
  induction l as [|c l IH]; intros st Hinv; [exact Hinv|].
  apply (IH (execute st c)). now apply valid_execute.
Qed.

Lemma empty_session_valid : session_valid empty_session.
Proof. repeat split; constructor. Qed.


(** X17: in a session built by commands, [get_last_state] of any drop
    point is ["UNKNOWN"] or one of [report_states]. *)
Theorem get_last_state_range (l : list command) (dp : DropPoint.t) :
  In (get_last_state (run empty_session l) dp) ("UNKNOWN" :: report_states).
Proof.
  pose proof (run_valid l empty_session_valid)
    as (_ & _ & _ & _ & _ & _ & Hstates & _).
  set (st := run empty_session l) in *.
  pose proof (get_last_report_spec st dp) as HR.
  unfold get_last_state.
  destruct (get_last_report st dp) as [r|]; [|now left].
  assert (Hr : In (Report.state r) report_states).
  { destruct HR as (_ & Hin & _). unfold reports in Hin.
    apply filter_In in Hin. destruct Hin as [Hin _].
    rewrite Forall_forall in Hstates. now apply Hstates. }
  destruct (get_last_visit st dp) as [v|]; [|now right].
  destruct (_ && _); [|now right].
  right. simpl. tauto.
Qed.

(** ** The priority is a finite number *)

Unset Implicit Arguments.

Lemma Zdigits2_le_mono (a b : Z) :
  0 <= a <= b -> Zdigits2 a <= Zdigits2 b.
Proof.
  intros [Ha Hab]. destruct (Z.eq_dec a 0) as [->|Hne].
  - apply Zdigits2_nonneg.
  - apply Zdigits2_pow; [lia|].
    pose proof (Zdigits2_below b ltac:(lia)). lia.
Qed.

Lemma Zdigits2_shiftl (m : positive) (s : Z) :
  0 <= s -> Zdigits2 (Z.shiftl (Zpos m) s) <= Zdigits2 (Zpos m) + s.
Proof.
  intros Hs. rewrite Z.shiftl_mul_pow2 by assumption.
  pose proof (Z.pow_pos_nonneg 2 s ltac:(lia) Hs) as Hpow.
  apply Zdigits2_pow; [nia|].
  pose proof (Zdigits2_below (Zpos m) ltac:(lia)) as Hm.
  pose proof (Zdigits2_nonneg (Zpos m)).
  rewrite Z.pow_add_r by assumption. nia.
Qed.

(** A quotient is below the dividend scaled by the divisor's exponent. *)
Lemma fdiv_below (x : spec_float) (my : positive) (ey k : Z) :
  magnitude_below k x ->
  -1074 <= k - ey <= 970 ->
  magnitude_below (k - ey + 1) (Py.fdiv x (S754_finite false my ey)).
Proof.
  intros Hx Hk.
  destruct x as [[|]|[|]| |[|] mx ex]; cbn [magnitude_below] in Hx;
    try contradiction; unfold Py.fdiv; cbn [SFdiv xorb]; [exact I|].
  unfold SFdiv_core_binary.
  set (e' := Z.min _ _).
  assert (He' : e' <= ex - ey) by (subst e'; lia).
  set (m' := match ex - ey - e' with
             | Z0 => Zpos mx
             | Zpos _ => Z.shiftl (Zpos mx) (ex - ey - e')
             | Zneg _ => 0
             end).
  assert (Hm' : 0 <= m' /\ Zdigits2 m' <= Zdigits2 (Zpos mx) + (ex - ey - e')).
  { subst m'. destruct (ex - ey - e') as [|s|s] eqn:Es.
    - split; [lia|]. lia.
    - split; [apply Z.shiftl_nonneg; lia|].
      apply Zdigits2_shiftl. lia.
    - lia. }
  pose proof (Z_div_mod m' (Zpos my) ltac:(lia)) as Hdiv.
  destruct (Z.div_eucl m' (Zpos my)) as [q r].
  destruct Hdiv as [Eq Hr].
  assert (Hq : 0 <= q <= m') by nia.
  pose proof (Zdigits2_le_mono q m' Hq) as Hdq.
  apply binary_round_aux_below; [lia| |assumption].
  cbn [Zdigits2] in *. lia.
Qed.

Lemma int_truediv_below (a : Z) (b : positive) (k : Z) :
  0 <= a -> a < 2 ^ k -> 0 <= k <= 970 ->
  magnitude_below (k + 1) (Py.int_truediv a b).
Proof.
  intros Ha Hlt Hk. unfold Py.int_truediv.
  destruct a as [|p|p]; [exact I| |lia].
  replace (k + 1) with (k - 0 + 1) by lia.
  apply fdiv_below; [|lia].
  cbn [magnitude_below].
  apply (Zdigits2_pow (Zpos p) k ltac:(lia)) in Hlt.
  cbn [Zdigits2] in Hlt. lia.
Qed.

Lemma hundredths_below (m : positive) (e k : Z) :
  e < 0 -> 0 <= k -> Zpos (digits2_pos m) + e <= k ->
  0 <= Py.hundredths m e < 2 ^ (k + 8).
Proof.
  intros He Hk Hm. unfold Py.hundredths.
  set (den := 2 ^ (- e)).
  assert (Hden : 0 < den) by (apply Z.pow_pos_nonneg; lia).
  assert (Hlt : Zpos m < 2 ^ k * den).
  { subst den. rewrite <- Z.pow_add_r by lia.
    apply (Zdigits2_pow (Zpos m)); [lia|]. cbn [Zdigits2]. lia. }
  assert (Hpow : 2 ^ (k + 8) = 256 * 2 ^ k).
  { rewrite Z.pow_add_r by lia. change (2 ^ 8) with 256. lia. }
  pose proof (Z.pow_pos_nonneg 2 k ltac:(lia) Hk) as Hk2.
  split.
  - apply Z.div_pos; nia.
  - apply Z.div_lt_upper_bound; [lia|]. rewrite Hpow. nia.
Qed.

Lemma fround2_below (f : spec_float) (k : Z) :
  magnitude_below k f -> 0 <= k <= 960 ->
  magnitude_below (k + 9) (Py.fround2 f).
Proof.
  intros Hf Hk.
  destruct f as [[|]|[|]| |[|] m e]; cbn [magnitude_below] in Hf;
    try contradiction; unfold Py.fround2; [exact I|].
  destruct (Z.leb_spec 0 e) as [He|He].
  - cbn [magnitude_below]. lia.
  - destruct (hundredths_below m e k He ltac:(lia) Hf) as [Hn0 Hn].
    destruct (Py.hundredths m e) as [|n|n]; [exact I| |exact I].
    replace (k + 9) with (k + 8 - 0 + 1) by lia.
    apply fdiv_below; [|lia].
    cbn [magnitude_below].
    apply (Zdigits2_pow (Zpos n) (k + 8) ltac:(lia)) in Hn.
    cbn [Zdigits2] in Hn. lia.
Qed.

Set Implicit Arguments.

Lemma elapsed_factor_below (dp : DropPoint.t) (delta : Z) :
  0 <= delta <= max_integer ->
  exists g,
    Py.truediv (total_seconds delta) (Py.Int (get_visit_interval dp))
    = Py.Float g /\
    magnitude_below 105 g.
Proof.
  unfold max_integer. change (2 ^ 63) with 9223372036854775808.
  intros Hdelta. eexists. split; [reflexivity|].
  cbn [total_seconds Py.to_float].
  change (Py.float_of_int (get_visit_interval dp))
    with (S754_finite false 7916483719987200 (-40)).
  replace 105 with (64 - (-40) + 1) by lia.
  apply fdiv_below; [|lia].
  apply (int_truediv_below delta 1000000 63); [lia| |lia].
  change (2 ^ 63) with 9223372036854775808. lia.
Qed.

(** X18: the priority of a drop point that is not removed is a float
    that is [+0.0] or positive and finite, never negative, infinite or
    not a number, as long as its last visit is not after the clock's
    time and the number of its reports, its crate count and the
    microseconds since the last visit are within the range of an Integer
    column. *)
Theorem priority_finite (st : Session) (today : datetime)
    (dp : DropPoint.t) :
  DropPoint.removed dp = None ->
  Z.of_nat (List.length (reports st dp)) <= max_integer ->
  get_current_crate_count st dp <= max_integer ->
  (forall v, get_last_visit st dp = Some v ->
             0 <= today - Visit.time v <= max_integer) ->
  exists f,
    get_priority st today dp = Py.Float f /\ magnitude_below 256 f.
Proof.
  intros Hrem Hreports Hcrates Hvisit.
  unfold get_priority. rewrite Hrem, priority_sum.
  pose proof (get_new_reports_length st dp) as Hlen.
  set (n := Z.of_nat (List.length (get_new_reports st dp))) in *.
  assert (Hn : 0 <= n <= max_integer) by lia.
  pose proof (@weighted_sum_below n (get_current_crate_count st dp)
                Hn Hcrates) as Hw.
  assert (Hint : magnitude_below 67 (Py.float_of_int ((1 + n) * 3))).
  { revert Hn. unfold max_integer.
    change (2 ^ 63) with 9223372036854775808. intros Hn.
    apply (float_of_int_below ((1 + n) * 3) 66); [lia| |lia].
    change (2 ^ 66) with 73786976294838206464. lia. }
  assert (H3 : magnitude_below 3 (Py.float_of_int 3))
    by (apply (float_of_int_below 3 2); simpl; lia).
  destruct (Py.geb (get_current_crate_count st dp) 1);
    cbn [Py.mul Py.add Py.to_float] in Hw |- *;
    destruct (get_last_visit st dp) as [v|].
  - destruct (@elapsed_factor_below dp (today - Visit.time v)
                (Hvisit v eq_refl)) as (g & -> & Hg).
    cbn [Py.mul Py.to_float Py.round2]. eexists. split; [reflexivity|].
    pose proof (fmul_below _ _ 130 105 Hw Hg ltac:(lia)) as Hp.
    apply (magnitude_below_mono _ 256 _
             (fround2_below _ _ Hp ltac:(lia))). lia.
  - cbn [Py.mul Py.to_float Py.round2]. eexists. split; [reflexivity|].
    pose proof (fmul_below _ _ 130 3 Hw H3 ltac:(lia)) as Hp.
    apply (magnitude_below_mono _ 256 _
             (fround2_below _ _ Hp ltac:(lia))). lia.
  - destruct (@elapsed_factor_below dp (today - Visit.time v)
                (Hvisit v eq_refl)) as (g & -> & Hg).
    cbn [Py.mul Py.to_float Py.round2]. eexists. split; [reflexivity|].
    pose proof (fmul_below _ _ 130 105 Hw Hg ltac:(lia)) as Hp.
    apply (magnitude_below_mono _ 256 _
             (fround2_below _ _ Hp ltac:(lia))). lia.
  - cbn [Py.mul Py.to_float Py.round2]. eexists. split; [reflexivity|].
    apply (magnitude_below_mono _ 256 _
             (fround2_below _ _ Hint ltac:(lia))). lia.
Qed.

Lemma priority_finite_witness :
  exists f,
    get_priority session_emptied 7200000500 hall = Py.Float f /\
    magnitude_below 256 f.
Proof.
  apply (priority_finite session_emptied 7200000500 hall).
  - reflexivity.
  - vm_compute. discriminate.
  - vm_compute. discriminate.
  - intros v [= <-]. vm_compute. split; discriminate.
Defined.

(** ** History is kept *)

Lemma extends_refl (st : Session) : extends st st.
Proof. repeat split; exists []; now rewrite app_nil_r. Qed.

Lemma extends_trans (st1 st2 st3 : Session) :
  extends st1 st2 -> extends st2 st3 -> extends st1 st3.
Proof.
  intros ((l1 & E1) & (c1 & F1) & (r1 & G1) & (v1 & H1) & (d1 & I1))
         ((l2 & E2) & (c2 & F2) & (r2 & G2) & (v2 & H2) & (d2 & I2)).
  repeat split.
  - exists (l1 ++ l2). now rewrite E2, E1, app_assoc.
  - exists (c1 ++ c2). now rewrite F2, F1, app_assoc.
  - exists (r1 ++ r2). now rewrite G2, G1, app_assoc.
  - exists (v1 ++ v2). now rewrite H2, H1, app_assoc.
  - exists (d1 ++ d2). now rewrite I2, I1, app_assoc.
Qed.

Lemma extends_add_location (st : Session) (x : Location.t) :
  extends st (add_location st x).
Proof.
  repeat split; simpl; try (exists []; now rewrite app_nil_r).
  now exists [x].
Qed.

Lemma extends_add_capacity (st : Session) (x : Capacity.t) :
  extends st (add_capacity st x).
Proof.
  repeat split; simpl; try (exists []; now rewrite app_nil_r).
  now exists [x].
Qed.

Lemma extends_add_report (st : Session) (x : Report.t) :
  extends st (add_report st x).
Proof.
  repeat split; simpl; try (exists []; now rewrite app_nil_r).
  now exists [x].
Qed.

Lemma extends_add_visit (st : Session) (x : Visit.t) :
  extends st (add_visit st x).
Proof.
  repeat split; simpl; try (exists []; now rewrite app_nil_r).
  now exists [x].
Qed.

Lemma extends_add_drop_point (st : Session) (x : DropPoint.t) :
  extends st (add_drop_point st x).
Proof.
  repeat split; simpl; try (exists []; now rewrite app_nil_r).
  exists [DropPoint.oid x]. now rewrite map_app.
Qed.

Lemma extends_update_drop_point (st : Session) (self : DropPoint.t) :
  extends st (update_drop_point st self).
Proof.
  repeat split; simpl; try (exists []; now rewrite app_nil_r).
  exists []. rewrite app_nil_r, map_map. apply map_ext. intros x.
  destruct (Nat.eqb_spec (DropPoint.oid x) (DropPoint.oid self)) as [E|_];
    [now symmetry|reflexivity].
Qed.

Lemma extends_Location_init (st : Session) (today : datetime)
    (dp : DropPoint.t) (start_time : option datetime)
    (description : option string) (lat lng : option spec_float)
    (level : option Z) :
  extends st
    (fst (Location_init st today dp start_time description lat lng level)).
Proof.
  pose proof (Location_init_session st today dp start_time description
                                    lat lng level) as H.
  destruct (Location_init st today dp start_time description lat lng level)
    as [st' [x|e]]; destruct H as [-> _]; simpl.
  - apply extends_add_location.
  - apply extends_refl.
Qed.

Lemma extends_Capacity_init (st : Session) (today : datetime)
    (dp : DropPoint.t) (start_time : option datetime) (crates : option Z) :
  extends st (fst (Capacity_init st today dp start_time crates)).
Proof.
  pose proof (Capacity_init_session st today dp start_time crates) as H.
  destruct (Capacity_init st today dp start_time crates)
    as [st' [x|e]]; destruct H as [-> _]; simpl.
  - apply extends_add_capacity.
  - apply extends_refl.
Qed.

Lemma extends_Report_init (st : Session) (today : datetime)
    (dp : DropPoint.t) (time : option datetime) (state : option string) :
  extends st (fst (Report_init st today dp time state)).
Proof.
  destruct (Report_init st today dp time state) as [st' [r|e]] eqn:E; simpl.
  - destruct (Report_init_Ok st today dp time state E) as (-> & _).
    apply extends_add_report.
  - rewrite (Report_init_Raise st today dp time state E).
    apply extends_refl.
Qed.

Lemma extends_Visit_init (st : Session) (today : datetime)
    (dp : DropPoint.t) (time : option datetime) (action : option string) :
  extends st (fst (Visit_init st today dp time action)).
Proof.
  destruct (Visit_init st today dp time action) as [st' [v|e]] eqn:E; simpl.
  - destruct (Visit_init_Ok st today dp time action E) as (-> & _).
    apply extends_add_visit.
  - rewrite (Visit_init_Raise st today dp time action E).
    apply extends_refl.
Qed.

Lemma extends_remove (st : Session) (today : datetime)
    (self : DropPoint.t) (time : option datetime) :
  extends st (fst (remove st today self time)).
Proof.
  destruct (remove_session st today self time) as [->|(t & _ & ->)].
  - apply extends_refl.
  - apply extends_update_drop_point.
Qed.

Lemma extends_DropPoint_init (st : Session)
    (today_location today_capacity : datetime)
    (number : option Z) (description : option string)
    (lat lng : option spec_float) (level : option Z) (crates : option Z)
    (start_time : option datetime) :
  extends st
    (fst (DropPoint_init st today_location today_capacity number description
                         lat lng level crates start_time)).
Proof.
  rewrite DropPoint_init_unfold. cbv zeta.
  set (self := DropPoint.mk (next_oid st) number None).
  assert (H0 : extends st (new_object st))
    by (repeat split; exists []; simpl; now rewrite app_nil_r).
  pose proof (extends_Location_init (new_object st) today_location self
                start_time description lat lng level) as H1.
  pose proof (extends_Capacity_init
                (fst (Location_init (new_object st) today_location self
                        start_time description lat lng level))
                today_capacity self start_time crates) as H2.
  pose proof (extends_trans H0 (extends_trans H1 H2)) as H.
  destruct (_ ++ _ ++ _); simpl; [|exact H].
  exact (extends_trans H (extends_add_drop_point _ self)).
Qed.

Lemma extends_execute (st : Session) (c : command) :
  extends st (execute st c).
Proof.
  destruct c; simpl; unfold on_drop_point, report, visit;
    try (destruct (get st number) as [dp|]; [|apply extends_refl]).
  - apply extends_DropPoint_init.
  - apply extends_Location_init.
  - apply extends_Capacity_init.
  - apply extends_Report_init.
  - apply extends_Visit_init.
  - apply extends_remove.
Qed.

(** X19: the model only ever appends.  Through any sequence of commands
    the locations, capacities, reports and visits of the session stay in
    it, unchanged and in their order, with new entries after them, and
    so do the identities of its drop points. *)
Theorem history_is_kept (l : list command) :
  forall st, extends st (run st l).
Proof.
  induction l as [|c l IH]; intros st; [apply extends_refl|].
  apply (extends_trans (extends_execute st c)). exact (IH (execute st c)).
Qed.



(** [remove] either leaves the session as it is or assigns [removed] on
    a drop point on which it was not set. *)
Lemma remove_updates (st : Session) (today : datetime)
    (self : DropPoint.t) (time : option datetime) :
  fst (remove st today self time) = st \/
  DropPoint.removed self = None /\
  exists t : datetime,
    fst (remove st today self time)
    = update_drop_point st
        (DropPoint.mk (DropPoint.oid self) (DropPoint.number self) (Some t)).
Proof.
  unfold remove. destruct (DropPoint.removed self); [now left|].
  destruct (match time with Some t => today <? t | None => false end);
    [now left|].
  right. split; [reflexivity|]. eexists. reflexivity.
Qed.

Lemma drop_points_DropPoint_init (st : Session)
    (today_location today_capacity : datetime)
    (number : option Z) (description : option string)
    (lat lng : option spec_float) (level : option Z) (crates : option Z)
    (start_time : option datetime) :
  let st' :=
    fst (DropPoint_init st today_location today_capacity number description
                        lat lng level crates start_time) in
  let self := DropPoint.mk (next_oid st) number None in
  added_drop_points st' = added_drop_points st \/
  added_drop_points st' = added_drop_points st ++ [self] /\
  location_rows st' self <> [] /\ capacity_rows st' self <> [].
Proof.
  cbv zeta. rewrite DropPoint_init_unfold. cbv zeta.
  set (self := DropPoint.mk (next_oid st) number None).
  pose proof (Location_init_session (new_object st) today_location self
                start_time description lat lng level) as E1.
  destruct (Location_init (new_object st) today_location self start_time
                          description lat lng level) as [st1 r1].
  simpl fst in *. simpl snd in *.
  pose proof (Capacity_init_session st1 today_capacity self start_time
                                    crates) as E2.
  destruct (Capacity_init st1 today_capacity self start_time crates)
    as [st2 r2].
  simpl fst in *. simpl snd in *.
  destruct (_ ++ _ ++ _) eqn:Eerr; simpl.
  - right. apply app_nil_iff in Eerr. destruct Eerr as [_ Eerr].
    apply app_nil_iff in Eerr. destruct Eerr as [C1 C2].
    destruct r1 as [x1|e1].
    2:{ destruct E1 as (_ & errors & -> & Hne). simpl in C1. contradiction. }
    destruct r2 as [x2|e2].
    2:{ destruct E2 as (_ & errors & -> & Hne). simpl in C2. contradiction. }
    destruct E1 as [-> D1]. destruct E2 as (-> & D2 & _).
    split; [reflexivity|]. split.
    + change (location_rows
                (add_drop_point
                   (add_capacity (add_location (new_object st) x1) x2) self)
                self)
        with (location_rows (add_location st x1) self).
      rewrite (location_rows_add st self x1 D1).
      intros H. apply app_eq_nil in H. destruct H as [_ H]. discriminate.
    + change (capacity_rows
                (add_drop_point
                   (add_capacity (add_location (new_object st) x1) x2) self)
                self)
        with (capacity_rows (add_capacity st x2) self).
      rewrite (capacity_rows_add st self x2 D2).
      intros H. apply app_eq_nil in H. destruct H as [_ H]. discriminate.
  - left. destruct r1; destruct E1 as [-> _]; destruct r2;
      destruct E2 as [-> _]; reflexivity.
Qed.




(** ** A removal is permanent *)

Lemma removed_stays_execute (st : Session) (c : command) (d : DropPoint.t)
    (t : datetime) :
  session_valid st -> In d (added_drop_points st) ->
  DropPoint.removed d = Some t ->
  In d (added_drop_points (execute st c)).
Proof.
  intros Hvalid Hin Hremoved.
  destruct c; simpl; unfold on_drop_point, report, visit;
    try (destruct (get st number) as [dp|] eqn:Hget; [|exact Hin]).
  - destruct (drop_points_DropPoint_init st today_location today_capacity
                number description lat lng level crates start_time)
      as [E|(E & _)]; cbv zeta in E; rewrite E; [assumption|].
    apply in_or_app. now left.
  - pose proof (Location_init_session st today dp start_time description
                                      lat lng level) as E.
    destruct (Location_init st today dp start_time description lat lng level)
      as [st' [x|e]]; destruct E as [-> _]; exact Hin.
  - pose proof (Capacity_init_session st today dp start_time crates) as E.
    destruct (Capacity_init st today dp start_time crates)
      as [st' [x|e]]; destruct E as [-> _]; exact Hin.
  - destruct (Report_init st today dp time state) as [st' [r|e]] eqn:E.
    + now destruct (Report_init_Ok st today dp time state E) as (-> & _).
    + now rewrite (Report_init_Raise st today dp time state E).
  - destruct (Visit_init st today dp time action) as [st' [v|e]] eqn:E.
    + now destruct (Visit_init_Ok st today dp time action E) as (-> & _).
    + now rewrite (Visit_init_Raise st today dp time action E).
  - destruct (remove_updates st today dp time) as [->|(Hnone & t' & ->)];
      [exact Hin|].
    simpl. apply in_map_iff. exists d. split; [|exact Hin].
    destruct (Nat.eqb_spec (DropPoint.oid d) (DropPoint.oid dp)) as [E|_];
      [|reflexivity].
    destruct Hvalid as (_ & Hnodup & _).
    destruct (get_In st number Hget) as [Hdp _].
    rewrite (NoDup_map_inj DropPoint.oid _ d dp Hnodup Hin Hdp E)
      in Hremoved.
    congruence.
Qed.

(** X21: a removal is permanent.  A removed drop point of a session
    built by commands is in the session after any further commands, with
    the same number and the same removal time, and every further
    [remove] of it raises the [RuntimeError]. *)
Theorem removal_is_permanent (l l' : list command) (d : DropPoint.t)
    (t : datetime) :
  In d (added_drop_points (run empty_session l)) ->
  DropPoint.removed d = Some t ->
  In d (added_drop_points (run (run empty_session l) l')) /\
  forall today time,
    remove (run (run empty_session l) l') today d time
    = (run (run empty_session l) l',
       Raise (RuntimeError [("DropPoint", "Drop point already removed.")])).
Proof.
  intros Hin Hremoved. split.
  - pose proof (run_valid l empty_session_valid) as Hvalid.
    revert Hin Hvalid. generalize (run empty_session l).
    induction l' as [|c l' IH]; intros st Hin Hvalid; [exact Hin|].
    apply (IH (execute st c)).
    + now apply removed_stays_execute with (t := t).
    + now apply valid_execute.
  - intros today time. unfold remove. now rewrite Hremoved.
Qed.

Lemma removal_is_permanent_witness :
  In (DropPoint.mk 1 (Some 2) (Some 500))
     (added_drop_points
        (run (run empty_session busy_day)
             [Remove 600 2 None; LogReport 700 2 (Some "EMPTY") None])).
Proof.
  assert (Hin : In (DropPoint.mk 1 (Some 2) (Some 500))
                   (added_drop_points (run empty_session busy_day)))
    by (vm_compute; tauto).
  exact (proj1 (@removal_is_permanent busy_day
                  [Remove 600 2 None; LogReport 700 2 (Some "EMPTY") None]
                  (DropPoint.mk 1 (Some 2) (Some 500)) 500 Hin eq_refl)).
Defined.

(** ** Lookup and counts *)


(** X23: an accepted report counts for its drop point only.  The total
    report count of the drop point goes up by one and that of a drop
    point of another identity stays; the count of new reports goes up by
    one when the report is later than the last visit or there is none,
    and stays otherwise. *)
Theorem report_counts (st st' : Session) (today : datetime)
    (dp : DropPoint.t) (state : option string) (time : option datetime)
    (r : Report.t) :
  report st today dp state time = (st', Ok r) ->
  get_total_report_count st' dp = S (get_total_report_count st dp) /\
  (forall other, DropPoint.oid other <> DropPoint.oid dp ->
     get_total_report_count st' other = get_total_report_count st other /\
     get_new_report_count st' other = get_new_report_count st other) /\
  get_new_report_count st' dp
  = match get_last_visit st dp with
    | Some v =>
        if Visit.time v <? Report.time r
        then S (get_new_report_count st dp)
        else get_new_report_count st dp
    | None => S (get_new_report_count st dp)
    end.
Proof.
  unfold report. intros H.
  destruct (Report_init_Ok st today dp time state H) as (-> & Hdp & _).
  unfold get_new_report_count, get_total_report_count.
  rewrite !get_last_visit_add_report, (reports_add_report st dp r Hdp).
  split; [|split].
  - rewrite length_app. simpl. lia.
  - intros other Hother.
    assert (E : reports (add_report st r) other = reports st other).
    { unfold reports. simpl. rewrite filter_app. simpl.
      destruct (Nat.eqb_spec (Report.dp r) (DropPoint.oid other)) as [E|_];
        [congruence|apply app_nil_r]. }
    rewrite get_last_visit_add_report, E. now split.
  - destruct (get_last_visit st dp) as [v|].
    + rewrite filter_app, length_app. simpl.
      destruct (Visit.time v <? Report.time r); simpl; lia.
    + rewrite length_app. simpl. lia.
Qed.

Lemma report_counts_witness :
  get_total_report_count session_reported hall = 2%nat /\
  get_new_report_count session_reported hall = 2%nat.
Proof.
  destruct (@report_counts
              (fst (report session_hall 200 hall (Some "FULL") None))
              session_reported 300 hall (Some "OVERFLOW") None
              (Report.mk 0 300 "OVERFLOW") eq_refl)
    as (Htotal & _ & Hnew).
  split; [exact Htotal|exact Hnew].
Defined.
